(** * Health-check notifier: a shallow embedding of [health_check_service.py]

    The script reads the last credential row of a Google sheet, exchanges
    it for a token, queries a status endpoint and posts a card to a chat
    webhook.  Every function of the script is a single external call
    wrapped in [try]/[except]; the embedding keeps that shape:

    - Python values are an inductive type [pyval] with the truthiness,
      [==], [+], [str()] and subscript rules the script relies on;
    - exceptions are a value of type [exn] carried by the [Err] branch of
      a result, [try]/[except] is [try_except];
    - everything observable (function entries, HTTP requests, sheet
      opens, [print] calls) is appended to a trace of [event]s;
    - the external collaborators (environment, keys file, gspread,
      requests) are the fields of a record [World]. *)

From Stdlib Require Import List String Ascii ZArith Bool Lia.
From Stdlib Require Import DecimalString.
Import ListNotations.
Open Scope string_scope.
Open Scope Z_scope.

Set Implicit Arguments.
Set Warnings "-register-all".

(** ** Python values *)

Inductive pyval : Type :=
| VNone
| VBool (b : bool)
| VInt (n : Z)
| VStr (s : string)
| VTuple (items : list pyval)
| VList (items : list pyval)
| VDict (entries : list (string * pyval)).

(** The exceptions (all subclasses of [Exception]) that the script and
    its collaborators raise. *)
Inductive exn : Type :=
| RequestException (detail : string)
| HTTPError (status : Z)
| JSONDecodeError
| KeyError (key : string)
| IndexError
| TypeError (detail : string)
| AttributeError (attr : string)
| RuntimeError (msg : string)
| OtherError (name : string).

Inductive result (A : Type) : Type :=
| Ok (a : A)
| Err (e : exn).
Arguments Ok {A} a.
Arguments Err {A} e.

(** [requests.exceptions.HTTPError] is a subclass of
    [requests.exceptions.RequestException]. *)
Definition is_request_exception (e : exn) : bool :=
  match e with
  | RequestException _ | HTTPError _ => true
  | _ => false
  end.

(** [bool(v)]: what [if not v] tests. *)
Definition truthy (v : pyval) : bool :=
  match v with
  | VNone => false
  | VBool b => b
  | VInt n => negb (n =? 0)
  | VStr s => negb (String.eqb s EmptyString)
  | VTuple items => negb (Nat.eqb (List.length items) 0)
  | VList items => negb (Nat.eqb (List.length items) 0)
  | VDict entries => negb (Nat.eqb (List.length entries) 0)
  end.

(** [v == "literal"]: only a [str] with the same characters is equal to
    a [str]. *)
Definition py_eq_str (v : pyval) (lit : string) : bool :=
  match v with
  | VStr s => String.eqb s lit
  | _ => false
  end.

Definition is_str (v : pyval) : bool :=
  match v with
  | VStr _ => true
  | _ => false
  end.

(** ["literal" + v]: concatenation for a [str], [TypeError] otherwise. *)
Definition py_str_add (lit : string) (v : pyval) : result pyval :=
  match v with
  | VStr s => Ok (VStr (lit ++ s))
  | _ => Err (TypeError "can only concatenate str to str")
  end.

Fixpoint join (sep : string) (parts : list string) : string :=
  match parts with
  | [] => EmptyString
  | [p] => p
  | p :: rest => p ++ sep ++ join sep rest
  end.

Definition string_of_Z (n : Z) : string :=
  NilZero.string_of_int (Z.to_int n).

Section Repr.
(** [repr] of a [str] (quote selection and escaping) is left to the
    runtime; the rest of [repr] and [str] is written out. *)
Variable repr_str : string -> string.

Fixpoint py_repr (v : pyval) : string :=
  match v with
  | VNone => "None"
  | VBool true => "True"
  | VBool false => "False"
  | VInt n => string_of_Z n
  | VStr s => repr_str s
  | VTuple [x] => "(" ++ py_repr x ++ ",)"
  | VTuple items => "(" ++ join ", " (map py_repr items) ++ ")"
  | VList items => "[" ++ join ", " (map py_repr items) ++ "]"
  | VDict entries =>
      "{" ++ join ", "
               (map (fun kv => repr_str (fst kv) ++ ": " ++ py_repr (snd kv))
                    entries) ++ "}"
  end.

(** [str(v)], also what an f-string placeholder [{v}] renders. *)
Definition py_str (v : pyval) : string :=
  match v with
  | VStr s => s
  | _ => py_repr v
  end.
End Repr.

(** [d[key]] on a dict. *)
Fixpoint dict_getitem (entries : list (string * pyval)) (key : string)
  : result pyval :=
  match entries with
  | [] => Err (KeyError key)
  | (k, v) :: rest => if String.eqb k key then Ok v else dict_getitem rest key
  end.

(** [d.get(key, default)] on a dict. *)
Definition dict_get (entries : list (string * pyval)) (key : string)
  (default : pyval) : pyval :=
  match dict_getitem entries key with
  | Ok v => v
  | Err _ => default
  end.

(** [v[key]] with a [str] key: only a dict accepts it. *)
Definition py_getitem (v : pyval) (key : string) : result pyval :=
  match v with
  | VDict entries => dict_getitem entries key
  | VNone | VBool _ | VInt _ => Err (TypeError "object is not subscriptable")
  | VStr _ | VTuple _ | VList _ =>
      Err (TypeError "indices must be integers or slices, not str")
  end.

(** [l[i]] on a list: a negative index counts from the end. *)
Definition list_getitem {A : Type} (l : list A) (i : Z) : result A :=
  let n := Z.of_nat (List.length l) in
  let j := if i <? 0 then i + n else i in
  if (0 <=? j) && (j <? n) then
    match nth_error l (Z.to_nat j) with
    | Some a => Ok a
    | None => Err IndexError
    end
  else Err IndexError.

(** ** External collaborators *)

Record request : Type := {
  req_method : string;
  req_url : pyval;
  req_headers : list (string * string);
  req_json : pyval
}.

Record response : Type := {
  status_code : Z;
  response_text : string;   (* response.text *)
  json : result pyval
}.

(** A worksheet row as [get_all_records] returns it: header name to cell. *)
Definition record : Type := list (string * pyval).

Record Worksheet : Type := {
  get_all_records : result (list record)
}.

(** [get_worksheet(index)] hands back a worksheet, [None] (older gspread,
    index out of range) or raises. *)
Record Spreadsheet : Type := {
  get_worksheet : Z -> result (option Worksheet)
}.

(** What a variable of the orchestrator can hold: a plain value or a
    gspread object. *)
Inductive obj : Type :=
| OVal (v : pyval)
| OSpreadsheet (ss : Spreadsheet)
| OWorksheet (ws : Worksheet).

(** gspread objects define neither [__bool__] nor [__len__]. *)
Definition obj_truthy (o : obj) : bool :=
  match o with
  | OVal v => truthy v
  | OSpreadsheet _ | OWorksheet _ => true
  end.

(** The collaborators answer as functions of what they are asked.  Within
    one run this loses nothing: the keys file is read once, one
    spreadsheet is opened once, and the three HTTP requests differ (a
    POST with an [Authorization] header, a GET, a POST without
    headers).  The files written at import time (lines 16-22 of the
    script) are behind [keys_file] and [open_by_key]. *)
Record World : Type := {
  (* os.getenv results read at import time *)
  webhook_url : pyval;
  service_api_url : pyval;
  auth_api_url : pyval;
  (* open(keys_json_path) followed by json.load *)
  keys_file : result pyval;
  (* gspread.service_account(...).open_by_key(key) *)
  open_by_key : pyval -> result Spreadsheet;
  (* requests.request / requests.post *)
  http : request -> result response;
  (* repr() of a str *)
  repr_str : string -> string
}.

(** ** Trace

    A function entry is recorded for the helpers the orchestrator calls
    ([EvAuthenticate], [EvCheckStatus], [EvPostToWebhook],
    [EvGoogleSheetConnect]); [EvHttp] is a request handed to [requests],
    whether or not it is answered; [EvPrint] is a line on standard
    output, kept as the structured value [log] since the text of an
    exception and of a traceback is the runtime's. *)

Inductive log : Type :=
| LogApiError (e : exn)            (* "An error occurred: ..." *)
| LogSheetFail (e : exn)           (* "Exception :: GoogleSheet_Connect ..." *)
| LogTraceback (e : exn)           (* "Traceback:" and the formatted trace *)
| LogKeyInvalid (e : exn)          (* "Excel key invalid ..." *)
| LogWebhookUnconfigured           (* "Webhook URL is not configured." *)
| LogWebhookSent (msg : string)    (* "Webhook message sent: ..." *)
| LogWebhookFailed (status : Z) (body : string)
| LogWebhookError (e : exn).       (* "Error sending webhook message: ..." *)

Inductive event : Type :=
| EvGoogleSheetConnect (key : pyval)
| EvAuthenticate (username password : pyval)
| EvCheckStatus (token : pyval)
| EvPostToWebhook (text color : pyval)
| EvHttp (req : request)
| EvPrint (l : log).

(** ** The effect monad: a trace and a value or a raised exception *)

Definition M (A : Type) : Type := (list event * result A)%type.

Definition ret {A : Type} (a : A) : M A := ([], Ok a).
Definition raise {A : Type} (e : exn) : M A := ([], Err e).
Definition lift {A : Type} (r : result A) : M A := ([], r).
Definition emit (ev : event) : M unit := ([ev], Ok tt).
Definition py_print (l : log) : M unit := emit (EvPrint l).

Definition trace {A : Type} (m : M A) : list event := fst m.
Definition outcome {A : Type} (m : M A) : result A := snd m.

Definition bind {A B : Type} (m : M A) (k : A -> M B) : M B :=
  match outcome m with
  | Ok a => ((trace m ++ trace (k a))%list, outcome (k a))
  | Err e => (trace m, Err e)
  end.

(** [try: body  except Exception as e: handler e]. *)
Definition try_except {A : Type} (body : M A) (handler : exn -> M A) : M A :=
  match outcome body with
  | Err e => ((trace body ++ trace (handler e))%list, outcome (handler e))
  | Ok a => (trace body, Ok a)
  end.

Declare Scope py_scope.
Delimit Scope py_scope with py.
Notation "x <- m ;; k" := (bind m (fun x => k))
  (at level 100, m at next level, right associativity) : py_scope.
Notation "m ;; k" := (bind m (fun _ => k))
  (at level 100, right associativity) : py_scope.
Open Scope py_scope.

(** ** The script's functions *)

Definition raise_for_status (r : response) : M unit :=
  if (400 <=? status_code r) && (status_code r <? 600)
  then raise (HTTPError (status_code r))
  else ret tt.

(** [requests.request(method, url, headers=..., json=...)]. *)
Definition requests_request (w : World) (req : request) : M response :=
  emit (EvHttp req) ;;
  lift (http w req).

Definition apiCaller (w : World) (url : pyval) (reqType : string)
  (jsonPayload : pyval) (token : pyval) : M response :=
  let headers := [("Authorization", "Bearer " ++ py_str (repr_str w) token)] in
  try_except
    (response <- requests_request w
                   {| req_method := reqType; req_url := url;
                      req_headers := headers; req_json := jsonPayload |} ;;
     raise_for_status response ;;
     ret response)
    (fun e =>
       if is_request_exception e
       then py_print (LogApiError e) ;; raise e
       else raise e).

(** The value every failure path of the script returns: [None, None]. *)
Definition failure : pyval := VTuple [VNone; VNone].

Definition googleSheetConnectNew (w : World) (EXCEL_KEY : pyval) : M obj :=
  emit (EvGoogleSheetConnect EXCEL_KEY) ;;
  try_except
    (spreadsheet <- lift (open_by_key w EXCEL_KEY) ;;
     ret (OSpreadsheet spreadsheet))
    (fun e =>
       py_print (LogSheetFail e) ;;
       py_print (LogTraceback e) ;;
       ret (OVal failure)).

Definition checkStausOfService (w : World) (token : pyval) : M pyval :=
  emit (EvCheckStatus token) ;;
  try_except
    (response <- apiCaller w (service_api_url w) "GET" VNone token ;;
     body <- lift (json response) ;;
     outer <- lift (py_getitem body "status") ;;
     inner <- lift (py_getitem outer "status") ;;
     ret (VStr (py_str (repr_str w) inner)))
    (fun e =>
       py_print (LogTraceback e) ;;
       ret failure).

Definition authenticate (w : World) (username password : pyval) : M pyval :=
  emit (EvAuthenticate username password) ;;
  try_except
    (let JSON_PAYLOAD :=
       VDict [("username", username); ("password", password)] in
     response <- apiCaller w (auth_api_url w) "POST" JSON_PAYLOAD VNone ;;
     body <- lift (json response) ;;
     token <- lift (py_getitem body "token") ;;
     ret token)
    (fun e =>
       py_print (LogTraceback e) ;;
       ret failure).

(** [config.get(key_name, default)] with the empty string as default:
    [config] is whatever [json.load] gave. *)
Definition config_get (config : pyval) (key_name : string) : result pyval :=
  match config with
  | VDict entries => Ok (dict_get entries key_name (VStr EmptyString))
  | _ => Err (AttributeError "get")
  end.

Definition get_excel_key (w : World) (key_name : string) : M pyval :=
  try_except
    (config <- lift (keys_file w) ;;
     lift (config_get config key_name))
    (fun e =>
       py_print (LogKeyInvalid e) ;;
       ret VNone).

(** The adaptive card of [post_to_webhook]. *)
Definition card_body (message : pyval) (color : pyval) : pyval :=
  VDict [
    ("type", VStr "AdaptiveCard");
    ("$schema", VStr "http://adaptivecards.io/schemas/adaptive-card.json");
    ("body", VList [
      VDict [
        ("type", VStr "Container");
        ("items", VList [
          VDict [
            ("type", VStr "TextBlock");
            ("text", message);
            ("wrap", VBool true);
            ("spacing", VStr "Medium");
            ("horizontalAlignment", VStr "Center");
            ("height", VStr "stretch");
            ("style", VStr "heading");
            ("fontType", VStr "Monospace");
            ("size", VStr "ExtraLarge");
            ("weight", VStr "Bolder");
            ("color", color);
            ("isSubtle", VBool true)
          ]
        ])
      ]
    ])
  ].

(** [requests.post(url, json=body)]: a POST without extra headers. *)
Definition webhook_request (url : pyval) (body : pyval) : request :=
  {| req_method := "POST"; req_url := url;
     req_headers := []; req_json := body |}.

Definition post_to_webhook (w : World) (text color : pyval) : M pyval :=
  emit (EvPostToWebhook text color) ;;
  if negb (truthy (webhook_url w)) then
    py_print LogWebhookUnconfigured ;;
    ret VNone
  else
    message <- lift (py_str_add "BMS Service is " text) ;;
    let body := card_body message color in
    try_except
      (response <- requests_request w (webhook_request (webhook_url w) body) ;;
       (if status_code response =? 202
        then py_print (LogWebhookSent (py_str (repr_str w) text))
        else py_print (LogWebhookFailed (status_code response) (response_text response))) ;;
       ret VNone)
      (fun e =>
         py_print (LogWebhookError e) ;;
         ret VNone).

(** [o.get_worksheet(index)] and [o.get_all_records()]: attribute lookup
    fails on anything but the object that has the method. *)
Definition call_get_worksheet (o : obj) (index : Z) : result obj :=
  match o with
  | OSpreadsheet ss =>
      match get_worksheet ss index with
      | Ok (Some ws) => Ok (OWorksheet ws)
      | Ok None => Ok (OVal VNone)
      | Err e => Err e
      end
  | _ => Err (AttributeError "get_worksheet")
  end.

Definition call_get_all_records (o : obj) : result (list record) :=
  match o with
  | OWorksheet ws => get_all_records ws
  | _ => Err (AttributeError "get_all_records")
  end.

Definition msg_connect_failed : string :=
  "Failed to connect to Google Sheets. Check service account permissions and spreadsheet key.".

Definition msg_worksheet_failed : string :=
  "Failed to access the first worksheet in the spreadsheet.".

Definition process_all_req (w : World) : M pyval :=
  try_except
    (windows_server_excel_key <- get_excel_key w "WINDOWS_SERVER_PASS" ;;
     spreadsheet <- googleSheetConnectNew w windows_server_excel_key ;;
     (if negb (obj_truthy spreadsheet)
      then raise (RuntimeError msg_connect_failed)
      else ret tt) ;;
     worksheet <- lift (call_get_worksheet spreadsheet 0) ;;
     (if negb (obj_truthy worksheet)
      then raise (RuntimeError msg_worksheet_failed)
      else ret tt) ;;
     data <- lift (call_get_all_records worksheet) ;;
     let last := Z.of_nat (List.length data) - 1 in
     row <- lift (list_getitem data last) ;;
     correct_username <- lift (dict_getitem row "Username") ;;
     row' <- lift (list_getitem data last) ;;
     correct_password <- lift (dict_getitem row' "Password") ;;
     access_token <- authenticate w correct_username correct_password ;;
     service_message <- checkStausOfService w access_token ;;
     (if py_eq_str service_message "Running"
      then post_to_webhook w service_message (VStr "Good")
      else post_to_webhook w service_message (VStr "Warning")) ;;
     ret (VStr "Success"))
    (fun e =>
       py_print (LogTraceback e) ;;
       ret failure).

(** ** A concrete world: the end-to-end scenarios of the specification *)

Module Scenario.

Definition ascii_repr (s : string) : string := "'" ++ s ++ "'".

Definition sheet_rows : list record :=
  [ [("Username", VStr "old"); ("Password", VStr "pw0")];
    [("Username", VStr "svc"); ("Password", VStr "pw1")] ].

Definition sheet : Spreadsheet :=
  {| get_worksheet := fun index =>
       if index =? 0
       then Ok (Some {| get_all_records := Ok sheet_rows |})
       else Err (OtherError "WorksheetNotFound") |}.

Definition sheets (key : pyval) : result Spreadsheet :=
  if py_eq_str key "SHEET123" then Ok sheet
  else Err (OtherError "SpreadsheetNotFound").

Definition reply (code : Z) (body : result pyval) : result response :=
  Ok {| status_code := code; response_text := EmptyString; json := body |}.

(** A server that accepts [svc]/[pw1], hands out token [abc], reports
    [label] to a bearer of [abc] and answers 401 to everything else;
    the webhook answers [hook_code]. *)
Definition server (label : string) (auth_ok : bool) (hook_code : Z)
  (req : request) : result response :=
  if py_eq_str (req_url req) "https://auth" then
    if auth_ok then reply 200 (Ok (VDict [("token", VStr "abc")]))
    else reply 401 (Err JSONDecodeError)
  else if py_eq_str (req_url req) "https://status" then
    match req_headers req with
    | [("Authorization", "Bearer abc")] =>
        reply 200 (Ok (VDict [("status", VDict [("status", VStr label)])]))
    | _ => reply 401 (Err JSONDecodeError)
    end
  else reply hook_code (Err JSONDecodeError).

Definition world (keys : pyval) (hook : pyval) (label : string)
  (auth_ok : bool) (hook_code : Z) : World :=
  {| webhook_url := hook;
     service_api_url := VStr "https://status";
     auth_api_url := VStr "https://auth";
     keys_file := Ok keys;
     open_by_key := sheets;
     http := server label auth_ok hook_code;
     repr_str := ascii_repr |}.

Definition keys_ok : pyval := VDict [("WINDOWS_SERVER_PASS", VStr "SHEET123")].

(** Scenario 1 / 2: everything answers. *)
Definition running : World := world keys_ok (VStr "https://hook") "Running" true 202.
Definition stopped : World := world keys_ok (VStr "https://hook") "Stopped" true 202.
(** Scenario 3: the keys table lacks the entry. *)
Definition no_key : World := world (VDict []) (VStr "https://hook") "Running" true 202.
(** Scenario 4: the auth endpoint answers 401. *)
Definition auth_401 : World := world keys_ok (VStr "https://hook") "Running" false 202.
(** The same runs without a webhook URL in the environment. *)
Definition running_no_hook : World := world keys_ok VNone "Running" true 202.
Definition auth_401_no_hook : World := world keys_ok VNone "Running" false 202.
(** A webhook that answers 500. *)
Definition running_hook_500 : World := world keys_ok (VStr "https://hook") "Running" true 500.

(** A spreadsheet whose first worksheet has a header row only. *)
Definition empty_sheet : Spreadsheet :=
  {| get_worksheet := fun _ => Ok (Some {| get_all_records := Ok [] |}) |}.

Definition no_rows : World :=
  {| webhook_url := VStr "https://hook";
     service_api_url := VStr "https://status";
     auth_api_url := VStr "https://auth";
     keys_file := Ok keys_ok;
     open_by_key := fun _ => Ok empty_sheet;
     http := server "Running" true 202;
     repr_str := ascii_repr |}.

End Scenario.

(** ** Observations on a trace *)

(** The HTTP requests of a trace, in order. *)
Fixpoint http_calls (tr : list event) : list request :=
  match tr with
  | [] => []
  | EvHttp req :: rest => req :: http_calls rest
  | _ :: rest => http_calls rest
  end.

(** The color policy of the orchestrator's last [if]. *)
Definition color_for (service_message : pyval) : pyval :=
  if py_eq_str service_message "Running" then VStr "Good" else VStr "Warning".

(** The spreadsheet identifier the orchestrator looks up. *)
Definition looked_up_key (w : World) : pyval :=
  match outcome (get_excel_key w "WINDOWS_SERVER_PASS") with
  | Ok v => v
  | Err _ => VNone
  end.

(** The request [authenticate] hands to [requests]. *)
Definition auth_request (w : World) (username password : pyval) : request :=
  {| req_method := "POST";
     req_url := auth_api_url w;
     req_headers := [("Authorization", "Bearer None")];
     req_json := VDict [("username", username); ("password", password)] |}.

(** The request [checkStausOfService] hands to [requests]. *)
Definition status_request (w : World) (token : pyval) : request :=
  {| req_method := "GET";
     req_url := service_api_url w;
     req_headers := [("Authorization", "Bearer " ++ py_str (repr_str w) token)];
     req_json := VNone |}.

(** The two halves of the body of [process_all_req], named for the
    proofs: lines 194-210 (spreadsheet to credentials) and lines 213-224
    (authentication to notification). *)
Definition read_credentials (w : World) : M (pyval * pyval) :=
  windows_server_excel_key <- get_excel_key w "WINDOWS_SERVER_PASS" ;;
  spreadsheet <- googleSheetConnectNew w windows_server_excel_key ;;
  (if negb (obj_truthy spreadsheet)
   then raise (RuntimeError msg_connect_failed)
   else ret tt) ;;
  worksheet <- lift (call_get_worksheet spreadsheet 0) ;;
  (if negb (obj_truthy worksheet)
   then raise (RuntimeError msg_worksheet_failed)
   else ret tt) ;;
  data <- lift (call_get_all_records worksheet) ;;
  let last := Z.of_nat (List.length data) - 1 in
  row <- lift (list_getitem data last) ;;
  correct_username <- lift (dict_getitem row "Username") ;;
  row' <- lift (list_getitem data last) ;;
  correct_password <- lift (dict_getitem row' "Password") ;;
  ret (correct_username, correct_password).

Definition report (w : World) (username password : pyval) : M pyval :=
  access_token <- authenticate w username password ;;
  service_message <- checkStausOfService w access_token ;;
  post_to_webhook w service_message (color_for service_message) ;;
  ret (VStr "Success").

(** [raise_for_status] lets the response through. *)
Definition accepted (r : response) : Prop :=
  (400 <=? status_code r) && (status_code r <? 600) = false.

(** What it means for each step before the notification to succeed. *)
Definition credentials_read (w : World) (u p : pyval) : Prop :=
  exists ss ws init row,
    open_by_key w (looked_up_key w) = Ok ss /\
    get_worksheet ss 0 = Ok (Some ws) /\
    get_all_records ws = Ok (init ++ [row])%list /\
    dict_getitem row "Username" = Ok u /\
    dict_getitem row "Password" = Ok p.

Definition authenticated (w : World) (u p tok : pyval) : Prop :=
  exists resp body,
    http w (auth_request w u p) = Ok resp /\
    accepted resp /\
    json resp = Ok body /\
    py_getitem body "token" = Ok tok.

Definition status_reported (w : World) (tok : pyval) (label : string) : Prop :=
  exists resp body outer inner,
    http w (status_request w tok) = Ok resp /\
    accepted resp /\
    json resp = Ok body /\
    py_getitem body "status" = Ok outer /\
    py_getitem outer "status" = Ok inner /\
    label = py_str (repr_str w) inner.

Definition prior_steps_succeed (w : World) (label : string) : Prop :=
  exists u p tok,
    credentials_read w u p /\ authenticated w u p tok /\ status_reported w tok label.

(** How the orchestrator ends once the notifier has been called after
    the events [pre]. *)
Definition finish (pre : list event) (m : M pyval) : M pyval :=
  match outcome m with
  | Ok _ => ((pre ++ trace m)%list, Ok (VStr "Success"))
  | Err e => ((pre ++ trace m ++ [EvPrint (LogTraceback e)])%list, Ok failure)
  end.

(** The calls of a trace, by callee and in order. *)
Fixpoint auth_calls (tr : list event) : list (pyval * pyval) :=
  match tr with
  | [] => []
  | EvAuthenticate u p :: rest => (u, p) :: auth_calls rest
  | _ :: rest => auth_calls rest
  end.

Fixpoint status_calls (tr : list event) : list pyval :=
  match tr with
  | [] => []
  | EvCheckStatus tok :: rest => tok :: status_calls rest
  | _ :: rest => status_calls rest
  end.

Fixpoint webhook_calls (tr : list event) : list (pyval * pyval) :=
  match tr with
  | [] => []
  | EvPostToWebhook text color :: rest => (text, color) :: webhook_calls rest
  | _ :: rest => webhook_calls rest
  end.

(** What the notifier prints after its HTTP call. *)
Definition webhook_log (s : string) (r : result response) : log :=
  match r with
  | Ok resp =>
      if status_code resp =? 202 then LogWebhookSent s
      else LogWebhookFailed (status_code resp) (response_text resp)
  | Err e => LogWebhookError e
  end.

(** The (text, color) of every TextBlock of every container of a card. *)
Definition field (v : pyval) (key : string) : pyval :=
  match py_getitem v key with
  | Ok x => x
  | Err _ => VNone
  end.

Definition elements (v : pyval) : list pyval :=
  match v with
  | VList items => items
  | _ => []
  end.

Definition text_blocks (card : pyval) : list (pyval * pyval) :=
  flat_map
    (fun container =>
       flat_map
         (fun item =>
            if py_eq_str (field item "type") "TextBlock"
            then [(field item "text", field item "color")]
            else [])
         (elements (field container "items")))
    (elements (field card "body")).

(** A request carries a bearer [Authorization] header. *)
Definition carries_bearer (req : request) : bool :=
  existsb
    (fun h => String.eqb (fst h) "Authorization" && prefix "Bearer " (snd h))
    (req_headers req).

(** The first worksheet is inaccessible or holds no data row. *)
Definition worksheet_unusable (ss : Spreadsheet) : Prop :=
  match get_worksheet ss 0 with
  | Err _ => True
  | Ok None => True
  | Ok (Some ws) =>
      match get_all_records ws with
      | Err _ => True
      | Ok data => data = []
      end
  end.

(** The webhook call failed in transport or was not answered with 202. *)
Definition webhook_failed (r : result response) : Prop :=
  match r with
  | Err _ => True
  | Ok resp => status_code resp <> 202
  end.

(** The authentication step fails: transport error, a 4xx/5xx status, a
    body that is not JSON, or a body without [token]. *)
Definition auth_fails (w : World) (u p : pyval) : Prop :=
  match http w (auth_request w u p) with
  | Err _ => True
  | Ok resp =>
      if (400 <=? status_code resp) && (status_code resp <? 600) then True
      else match json resp with
           | Err _ => True
           | Ok body => exists e, py_getitem body "token" = Err e
           end
  end.

(** ** The script as a whole

    Lines 9-22 run at import time: five [os.getenv] reads and two files
    written from them; line 232 then calls [process_all_req] and drops
    its result.  The host supplies the environment, whether a file
    opens for writing, the JSON parser, gspread (which reads the
    service-account file) and [requests]. *)

Inductive path : Type :=
| service_json_path     (* ~/repo/service_account.json *)
| keys_json_path.       (* ~/repo/keys.json *)

Definition path_eqb (a b : path) : bool :=
  match a, b with
  | service_json_path, service_json_path => true
  | keys_json_path, keys_json_path => true
  | _, _ => false
  end.

(** The content of each of the two files, if it exists. *)
Definition files : Type := path -> option string.

Record Host : Type := {
  (* os.environ *)
  getenv : string -> option string;
  (* the exception open(path, 'w') raises, if it does *)
  open_for_writing : path -> option exn;
  (* the exception f.write(text) or the closing of the file raises, if
     one does, with the text it leaves in the file: UnicodeEncodeError
     and an empty file for a value the file's encoding cannot take (an
     environment value with undecodable bytes), an OSError and a part of
     the text for a device that fills up *)
  write_failure : path -> string -> option (exn * string);
  (* json.load on the text of a file *)
  json_load : string -> result pyval;
  (* gspread.service_account(path).open_by_key(key), by the file's content *)
  service_account_open_by_key : option string -> pyval -> result Spreadsheet;
  (* requests.request / requests.post *)
  host_http : request -> result response;
  (* repr() of a str *)
  host_repr_str : string -> string
}.

(** [os.getenv(name)]: the value, or [None]. *)
Definition os_getenv (h : Host) (name : string) : pyval :=
  match getenv h name with
  | Some value => VStr value
  | None => VNone
  end.

Definition set_content (fs : files) (p : path) (content : string) : files :=
  fun q => if path_eqb q p then Some content else fs q.

(** [with open(p, 'w') as f: f.write(data)]: opening truncates the file;
    [write] accepts a [str] only, and may fail on a [str] too. *)
Definition write_file (h : Host) (p : path) (data : pyval) (fs : files)
  : files * result unit :=
  match open_for_writing h p with
  | Some e => (fs, Err e)
  | None =>
      match data with
      | VStr s =>
          match write_failure h p s with
          | None => (set_content fs p s, Ok tt)
          | Some (e, remains) => (set_content fs p remains, Err e)
          end
      | _ => (set_content fs p EmptyString,
              Err (TypeError "write() argument must be str"))
      end
  end.

(** File [p] opens for writing and takes the text [s] without error. *)
Definition written (h : Host) (p : path) (s : string) : Prop :=
  open_for_writing h p = None /\ write_failure h p s = None.

(** The globals and collaborators [process_all_req] sees once the module
    level has run, the files being [fs]. *)
Definition world_of (h : Host) (fs : files) : World :=
  {| webhook_url := os_getenv h "WEBHOOK_URL";
     service_api_url := os_getenv h "SERVICE_API_URL";
     auth_api_url := os_getenv h "AUTH_API_URL";
     keys_file :=
       match fs keys_json_path with
       | Some content => json_load h content
       | None => Err (OtherError "FileNotFoundError")
       end;
     open_by_key := service_account_open_by_key h (fs service_json_path);
     http := host_http h;
     repr_str := host_repr_str h |}.

(** Lines 9-22. *)
Definition module_init (h : Host) (fs : files) : files * result World :=
  let service_json := os_getenv h "SERVICE_JSON" in
  let keys_json := os_getenv h "KEYS_JSON" in
  match write_file h service_json_path service_json fs with
  | (fs1, Err e) => (fs1, Err e)
  | (fs1, Ok _) =>
      match write_file h keys_json_path keys_json fs1 with
      | (fs2, Err e) => (fs2, Err e)
      | (fs2, Ok _) => (fs2, Ok (world_of h fs2))
      end
  end.

(** The whole file: an exception of the module level is not caught. *)
Definition script (h : Host) (fs : files) : files * M unit :=
  match module_init h fs with
  | (fs', Err e) => (fs', raise e)
  | (fs', Ok w) => (fs', process_all_req w ;; ret tt)
  end.

(** A host for the scenarios: both files open for writing, a text with
    the byte 255 cannot be written, the parser knows two texts, gspread
    accepts one service-account text, the sheets and the server are
    those of [Scenario]. *)
Module HostScenario.

Definition dq : string := String (ascii_of_nat 34) EmptyString.

(** The text of a keys table with the one entry [SHEET123]. *)
Definition keys_text : string :=
  "{" ++ dq ++ "WINDOWS_SERVER_PASS" ++ dq ++ ": " ++ dq ++ "SHEET123" ++ dq ++ "}".

(** The text of the service-account blob. *)
Definition service_text : string :=
  "{" ++ dq ++ "type" ++ dq ++ ": " ++ dq ++ "service_account" ++ dq ++ "}".

(** An environment value with a byte that is not text. *)
Definition undecodable : string := String (ascii_of_nat 255) EmptyString.

Definition parse (content : string) : result pyval :=
  if String.eqb content keys_text then Ok Scenario.keys_ok
  else if String.eqb content "{}" then Ok (VDict [])
  else Err JSONDecodeError.

Definition encode_failure (p : path) (content : string) : option (exn * string) :=
  if String.eqb content undecodable
  then Some (OtherError "UnicodeEncodeError", EmptyString)
  else None.

Definition host (env : string -> option string) : Host :=
  {| getenv := env;
     open_for_writing := fun _ => None;
     write_failure := encode_failure;
     json_load := parse;
     service_account_open_by_key := fun content key =>
       match content with
       | Some text =>
           if String.eqb text service_text then Scenario.sheets key
           else Err (OtherError "MalformedError")
       | None => Err (OtherError "FileNotFoundError")
       end;
     host_http := Scenario.server "Running" true 202;
     host_repr_str := Scenario.ascii_repr |}.

(** All five variables set. *)
Definition env_full (name : string) : option string :=
  if String.eqb name "WEBHOOK_URL" then Some "https://hook"
  else if String.eqb name "SERVICE_JSON" then Some service_text
  else if String.eqb name "SERVICE_API_URL" then Some "https://status"
  else if String.eqb name "AUTH_API_URL" then Some "https://auth"
  else if String.eqb name "KEYS_JSON" then Some keys_text
  else None.


(** [KEYS_JSON] missing. *)
Definition env_no_keys (name : string) : option string :=
  if String.eqb name "KEYS_JSON" then None else env_full name.

(** [KEYS_JSON] is not JSON. *)
Definition env_bad_keys (name : string) : option string :=
  if String.eqb name "KEYS_JSON" then Some "oops" else env_full name.

(** [KEYS_JSON] holds a byte that is not text. *)
Definition env_undecodable_keys (name : string) : option string :=
  if String.eqb name "KEYS_JSON" then Some undecodable else env_full name.

(** [SERVICE_JSON] holds a byte that is not text, [KEYS_JSON] is missing. *)
Definition env_undecodable_service (name : string) : option string :=
  if String.eqb name "SERVICE_JSON" then Some undecodable else env_no_keys name.

Definition no_files : files := fun _ => None.

Definition stale_files : files := fun _ => Some "stale".

End HostScenario.

(** The requests the notifier makes for the text [msg]. *)
Definition expected_webhook_requests (w : World) (msg : pyval) : list request :=
  if truthy (webhook_url w) then
    match msg with
    | VStr s =>
        [webhook_request (webhook_url w)
           (card_body (VStr ("BMS Service is " ++ s)) (color_for msg))]
    | _ => []
    end
  else [].

(** More worlds: a worksheet without a [Password] column, a keys file
    that holds a JSON list. *)
Module MoreScenarios.

Definition rows_without_password : list record :=
  [ [("Username", VStr "svc")] ].

Definition sheet_without_password : Spreadsheet :=
  {| get_worksheet := fun _ =>
       Ok (Some {| get_all_records := Ok rows_without_password |}) |}.

Definition no_password : World :=
  {| webhook_url := VStr "https://hook";
     service_api_url := VStr "https://status";
     auth_api_url := VStr "https://auth";
     keys_file := Ok Scenario.keys_ok;
     open_by_key := fun _ => Ok sheet_without_password;
     http := Scenario.server "Running" true 202;
     repr_str := Scenario.ascii_repr |}.


Definition keys_unreadable : World :=
  {| webhook_url := VStr "https://hook";
     service_api_url := VStr "https://status";
     auth_api_url := VStr "https://auth";
     keys_file := Err JSONDecodeError;
     open_by_key := Scenario.sheets;
     http := Scenario.server "Running" true 202;
     repr_str := Scenario.ascii_repr |}.

End MoreScenarios.

(** * Proofs *)

(** ** The monad *)

Lemma bind_ok {A B : Type} (m : M A) (k : A -> M B) (a : A) :
  outcome m = Ok a ->
  bind m k = ((trace m ++ trace (k a))%list, outcome (k a)).
Proof. intros H. unfold bind. now rewrite H. Qed.

Lemma bind_err {A B : Type} (m : M A) (k : A -> M B) (e : exn) :
  outcome m = Err e -> bind m k = (trace m, Err e).
Proof. intros H. unfold bind. now rewrite H. Qed.

Lemma bind_assoc {A B C : Type} (m : M A) (f : A -> M B) (g : B -> M C) :
  bind (bind m f) g = bind m (fun a => bind (f a) g).
Proof.
  destruct m as [t [a | e]]; unfold bind; cbn; [ | reflexivity ].
  destruct (f a) as [t' [b | e']]; cbn; [ | reflexivity ].
  now rewrite app_assoc.
Qed.

Lemma bind_ext {A B : Type} (m : M A) (f g : A -> M B) :
  (forall a, f a = g a) -> bind m f = bind m g.
Proof. intros H. unfold bind. destruct (outcome m); [ now rewrite H | reflexivity ]. Qed.

Lemma bind_ret_l {A B : Type} (a : A) (k : A -> M B) : bind (ret a) k = k a.
Proof. unfold bind, ret; cbn. now destruct (k a). Qed.

Lemma post_to_webhook_color (w : World) (service_message : pyval) :
  (if py_eq_str service_message "Running"
   then post_to_webhook w service_message (VStr "Good")
   else post_to_webhook w service_message (VStr "Warning"))
  = post_to_webhook w service_message (color_for service_message).
Proof. unfold color_for. now destruct (py_eq_str service_message "Running"). Qed.

Lemma process_all_req_split (w : World) :
  process_all_req w =
  try_except
    (c <- read_credentials w ;; report w (fst c) (snd c))
    (fun e => py_print (LogTraceback e) ;; ret failure).
Proof.
  unfold process_all_req. f_equal.
  unfold read_credentials. cbv zeta.
  symmetry.
  repeat (rewrite bind_assoc; apply bind_ext; intro).
  rewrite bind_ret_l. cbn [fst snd]. unfold report.
  do 2 (apply bind_ext; intro).
  now rewrite post_to_webhook_color.
Qed.

(** ** The helpers, one by one *)

Lemma get_excel_key_value (w : World) :
  outcome (get_excel_key w "WINDOWS_SERVER_PASS") = Ok (looked_up_key w).
Proof.
  unfold looked_up_key, get_excel_key, try_except, bind, lift.
  destruct (keys_file w) as [config | e]; cbn; [ | reflexivity ].
  destruct (config_get config "WINDOWS_SERVER_PASS"); reflexivity.
Qed.

Lemma get_excel_key_missing (w : World) (entries : list (string * pyval)) (e : exn) :
  keys_file w = Ok (VDict entries) ->
  dict_getitem entries "WINDOWS_SERVER_PASS" = Err e ->
  looked_up_key w = VStr EmptyString.
Proof.
  intros Hfile Hmiss.
  unfold looked_up_key, get_excel_key, try_except, bind, lift.
  rewrite Hfile; cbn. unfold dict_get. now rewrite Hmiss.
Qed.

Lemma googleSheetConnectNew_ok (w : World) (key : pyval) (ss : Spreadsheet) :
  open_by_key w key = Ok ss ->
  googleSheetConnectNew w key = ([EvGoogleSheetConnect key], Ok (OSpreadsheet ss)).
Proof.
  intros H. unfold googleSheetConnectNew, try_except, bind, lift.
  now rewrite H.
Qed.

Lemma googleSheetConnectNew_err (w : World) (key : pyval) (e : exn) :
  open_by_key w key = Err e ->
  googleSheetConnectNew w key =
    ([EvGoogleSheetConnect key; EvPrint (LogSheetFail e); EvPrint (LogTraceback e)],
     Ok (OVal failure)).
Proof.
  intros H. unfold googleSheetConnectNew, try_except, bind, lift.
  now rewrite H.
Qed.

Lemma list_getitem_last {A : Type} (init : list A) (row : A) :
  list_getitem (init ++ [row]) (Z.of_nat (List.length (init ++ [row])) - 1) = Ok row.
Proof.
  unfold list_getitem. rewrite length_app. cbn [List.length].
  set (n := List.length init).
  replace (Z.of_nat (n + 1) - 1) with (Z.of_nat n) by lia.
  destruct (Z.ltb_spec (Z.of_nat n) 0) as [Hneg | _]; [ lia | ].
  destruct (Z.leb_spec 0 (Z.of_nat n)) as [_ | Hneg]; [ | lia ].
  destruct (Z.ltb_spec (Z.of_nat n) (Z.of_nat (n + 1))) as [_ | Hge]; [ | lia ].
  cbn [andb]. rewrite Nat2Z.id. subst n.
  rewrite nth_error_app2 by lia. now rewrite Nat.sub_diag.
Qed.

(** The authenticator always issues exactly its one request, and always
    returns a value. *)
Lemma authenticate_shape (w : World) (u p : pyval) :
  exists logs tok,
    authenticate w u p =
      (EvAuthenticate u p :: EvHttp (auth_request w u p) :: map EvPrint logs, Ok tok).
Proof.
  unfold authenticate, apiCaller, requests_request, raise_for_status,
    try_except, bind, lift, emit, py_print, ret, raise, auth_request.
  cbn [py_str py_repr append].
  destruct (http w _) as [resp | e]; cbn.
  - destruct ((400 <=? status_code resp) && (status_code resp <? 600)); cbn.
    + now exists [LogApiError (HTTPError (status_code resp));
                  LogTraceback (HTTPError (status_code resp))], failure.
    + destruct (json resp) as [body | e]; cbn.
      * destruct (py_getitem body "token") as [tok | e]; cbn.
        -- now exists [], tok.
        -- now exists [LogTraceback e], failure.
      * now exists [LogTraceback e], failure.
  - destruct (is_request_exception e); cbn.
    + now exists [LogApiError e; LogTraceback e], failure.
    + now exists [LogTraceback e], failure.
Qed.

Lemma authenticate_ok (w : World) (u p tok : pyval) :
  authenticated w u p tok ->
  authenticate w u p =
    ([EvAuthenticate u p; EvHttp (auth_request w u p)], Ok tok).
Proof.
  intros (resp & body & Hhttp & Hacc & Hjson & Htok).
  unfold authenticate, apiCaller, requests_request, raise_for_status,
    try_except, bind, lift, emit, py_print, ret, raise.
  cbn [py_str py_repr append]. fold (auth_request w u p).
  rewrite Hhttp; cbn. rewrite Hacc; cbn. rewrite Hjson; cbn. now rewrite Htok.
Qed.

(** The status check always issues exactly its one request, and always
    returns a value: a label or the failure pair. *)
Lemma checkStausOfService_shape (w : World) (tok : pyval) :
  exists logs msg,
    checkStausOfService w tok =
      (EvCheckStatus tok :: EvHttp (status_request w tok) :: map EvPrint logs, Ok msg)
    /\ (msg = failure \/ exists label, msg = VStr label).
Proof.
  unfold checkStausOfService, apiCaller, requests_request, raise_for_status,
    try_except, bind, lift, emit, py_print, ret, raise.
  fold (status_request w tok).
  destruct (http w _) as [resp | e]; cbn.
  - destruct ((400 <=? status_code resp) && (status_code resp <? 600)); cbn.
    + exists [LogApiError (HTTPError (status_code resp));
              LogTraceback (HTTPError (status_code resp))], failure. auto.
    + destruct (json resp) as [body | e]; cbn.
      * destruct (py_getitem body "status") as [outer | e]; cbn.
        -- destruct (py_getitem outer "status") as [inner | e]; cbn.
           ++ exists [], (VStr (py_str (repr_str w) inner)). eauto.
           ++ exists [LogTraceback e], failure. auto.
        -- exists [LogTraceback e], failure. auto.
      * exists [LogTraceback e], failure. auto.
  - destruct (is_request_exception e); cbn.
    + exists [LogApiError e; LogTraceback e], failure. auto.
    + exists [LogTraceback e], failure. auto.
Qed.

Lemma checkStausOfService_ok (w : World) (tok : pyval) (label : string) :
  status_reported w tok label ->
  checkStausOfService w tok =
    ([EvCheckStatus tok; EvHttp (status_request w tok)], Ok (VStr label)).
Proof.
  intros (resp & body & outer & inner & Hhttp & Hacc & Hjson & Ho & Hi & ->).
  unfold checkStausOfService, apiCaller, requests_request, raise_for_status,
    try_except, bind, lift, emit, py_print, ret, raise.
  fold (status_request w tok).
  rewrite Hhttp; cbn. rewrite Hacc; cbn. rewrite Hjson; cbn.
  rewrite Ho; cbn. now rewrite Hi.
Qed.

(** The three ways through the notifier. *)
Lemma post_to_webhook_unconfigured (w : World) (text color : pyval) :
  truthy (webhook_url w) = false ->
  post_to_webhook w text color =
    ([EvPostToWebhook text color; EvPrint LogWebhookUnconfigured], Ok VNone).
Proof.
  intros H. unfold post_to_webhook, bind, emit, py_print, ret. now rewrite H.
Qed.

Lemma post_to_webhook_not_str (w : World) (text color : pyval) :
  truthy (webhook_url w) = true ->
  is_str text = false ->
  exists detail,
    post_to_webhook w text color =
      ([EvPostToWebhook text color], Err (TypeError detail)).
Proof.
  intros H Hs. unfold post_to_webhook, bind, emit, py_print, ret, lift.
  rewrite H. destruct text; try discriminate Hs; cbn; eauto.
Qed.

Lemma post_to_webhook_str (w : World) (s : string) (color : pyval) :
  truthy (webhook_url w) = true ->
  let req := webhook_request (webhook_url w)
               (card_body (VStr ("BMS Service is " ++ s)) color) in
  post_to_webhook w (VStr s) color =
    ([EvPostToWebhook (VStr s) color; EvHttp req;
      EvPrint (webhook_log s (http w req))], Ok VNone).
Proof.
  intros H req. unfold post_to_webhook, requests_request, try_except, bind,
    emit, py_print, ret, lift.
  rewrite H. cbn [negb py_str_add outcome trace fst snd app].
  fold req. unfold webhook_log.
  destruct (http w req) as [resp | e]; cbn; [ | reflexivity ].
  now destruct (status_code resp =? 202).
Qed.

(** ** Calls of a trace *)

Lemma auth_calls_app (a b : list event) :
  auth_calls (a ++ b) = (auth_calls a ++ auth_calls b)%list.
Proof. induction a as [ | [] a IH]; cbn; now rewrite ?IH. Qed.

Lemma status_calls_app (a b : list event) :
  status_calls (a ++ b) = (status_calls a ++ status_calls b)%list.
Proof. induction a as [ | [] a IH]; cbn; now rewrite ?IH. Qed.

Lemma webhook_calls_app (a b : list event) :
  webhook_calls (a ++ b) = (webhook_calls a ++ webhook_calls b)%list.
Proof. induction a as [ | [] a IH]; cbn; now rewrite ?IH. Qed.

Lemma http_calls_app (a b : list event) :
  http_calls (a ++ b) = (http_calls a ++ http_calls b)%list.
Proof. induction a as [ | [] a IH]; cbn; now rewrite ?IH. Qed.

Lemma calls_of_prints (logs : list log) :
  auth_calls (map EvPrint logs) = [] /\
  status_calls (map EvPrint logs) = [] /\
  webhook_calls (map EvPrint logs) = [] /\
  http_calls (map EvPrint logs) = [].
Proof. induction logs; cbn; auto. Qed.

Lemma webhook_calls_In (tr : list event) (text color : pyval) :
  In (EvPostToWebhook text color) tr <-> In (text, color) (webhook_calls tr).
Proof.
  induction tr as [ | ev tr IH]; cbn; [ tauto | ].
  destruct ev; cbn; rewrite <- IH;
    (split; [ intros [H | H]; [ try discriminate H | ] | ]); auto;
    try (inversion H; auto); try (intros [H | H]; [ inversion H | ]; auto).
Qed.

Lemma status_calls_In (tr : list event) (tok : pyval) :
  In (EvCheckStatus tok) tr <-> In tok (status_calls tr).
Proof.
  induction tr as [ | ev tr IH]; cbn; [ tauto | ].
  destruct ev; cbn; rewrite <- IH;
    (split; [ intros [H | H]; [ try discriminate H | ] | ]); auto;
    try (inversion H; auto); try (intros [H | H]; [ subst | ]; auto).
Qed.

(** ** From the spreadsheet to the credentials *)

Lemma trace_bind_nil {A B : Type} (m : M A) (k : A -> M B) :
  trace m = [] -> (forall a, trace (k a) = []) -> trace (bind m k) = [].
Proof.
  intros Hm Hk. unfold bind. destruct (outcome m); cbn; [ | exact Hm ].
  now rewrite Hm, Hk.
Qed.

Ltac silent :=
  repeat (apply trace_bind_nil; [ | intro ]);
  try reflexivity;
  match goal with
  | |- trace (if ?b then _ else _) = [] => now destruct b
  end.

(** Past the connection, reading the credentials is silent. *)
Lemma read_credentials_trace (w : World) :
  exists logs logs',
    trace (read_credentials w) =
      (map EvPrint logs ++
       EvGoogleSheetConnect (looked_up_key w) :: map EvPrint logs')%list.
Proof.
  unfold read_credentials.
  pose proof (get_excel_key_value w) as Hkey.
  assert (Hlogs : exists logs,
             trace (get_excel_key w "WINDOWS_SERVER_PASS") = map EvPrint logs).
  { unfold get_excel_key, try_except, bind, lift.
    destruct (keys_file w) as [config | e]; cbn.
    - destruct (config_get config "WINDOWS_SERVER_PASS"); cbn.
      + now exists [].
      + now exists [LogKeyInvalid e].
    - now exists [LogKeyInvalid e]. }
  destruct Hlogs as [logs Hlogs].
  rewrite (bind_ok _ _ Hkey), Hlogs. cbn [trace fst].
  set (key := looked_up_key w).
  assert (Hconn : exists logs' o,
             googleSheetConnectNew w key =
               (EvGoogleSheetConnect key :: map EvPrint logs', Ok o)).
  { destruct (open_by_key w key) as [ss | e] eqn:Hopen.
    - rewrite (googleSheetConnectNew_ok _ _ Hopen). now exists [], (OSpreadsheet ss).
    - rewrite (googleSheetConnectNew_err _ _ Hopen).
      now exists [LogSheetFail e; LogTraceback e], (OVal failure). }
  destruct Hconn as (logs' & o & ->).
  exists logs, logs'. f_equal.
  rewrite bind_ok with (a := o) by reflexivity. cbn [trace fst].
  rewrite <- (app_nil_r (_ :: map EvPrint logs')) at 2. f_equal.
  cbv zeta. silent.
Qed.

Lemma read_credentials_calls (w : World) :
  auth_calls (trace (read_credentials w)) = [] /\
  status_calls (trace (read_credentials w)) = [] /\
  webhook_calls (trace (read_credentials w)) = [] /\
  http_calls (trace (read_credentials w)) = [].
Proof.
  destruct (read_credentials_trace w) as (logs & logs' & ->).
  rewrite auth_calls_app, status_calls_app, webhook_calls_app, http_calls_app.
  cbn. destruct (calls_of_prints logs) as (-> & -> & -> & ->).
  destruct (calls_of_prints logs') as (-> & -> & -> & ->). auto.
Qed.

(** A failed connection: the pair [failure] passes the guard and the
    attribute lookup on it raises. *)
Lemma read_credentials_unopened (w : World) (e : exn) :
  open_by_key w (looked_up_key w) = Err e ->
  outcome (read_credentials w) = Err (AttributeError "get_worksheet").
Proof.
  intros Hopen. unfold read_credentials.
  rewrite (bind_ok _ _ (get_excel_key_value w)). cbn [outcome snd].
  rewrite (googleSheetConnectNew_err _ _ Hopen).
  reflexivity.
Qed.

Lemma read_credentials_unopened_trace (w : World) (e : exn) :
  open_by_key w (looked_up_key w) = Err e ->
  trace (read_credentials w) =
    (trace (get_excel_key w "WINDOWS_SERVER_PASS") ++
     [EvGoogleSheetConnect (looked_up_key w);
      EvPrint (LogSheetFail e);
      EvPrint (LogTraceback e)])%list.
Proof.
  intros Hopen. unfold read_credentials.
  rewrite (bind_ok _ _ (get_excel_key_value w)). cbn [trace fst].
  rewrite (googleSheetConnectNew_err _ _ Hopen).
  reflexivity.
Qed.

Lemma read_credentials_opened (w : World) (ss : Spreadsheet) :
  open_by_key w (looked_up_key w) = Ok ss ->
  outcome (read_credentials w) =
    match get_worksheet ss 0 with
    | Err e => Err e
    | Ok None => Err (RuntimeError msg_worksheet_failed)
    | Ok (Some ws) =>
        match get_all_records ws with
        | Err e => Err e
        | Ok data =>
            match list_getitem data (Z.of_nat (List.length data) - 1) with
            | Err e => Err e
            | Ok row =>
                match dict_getitem row "Username" with
                | Err e => Err e
                | Ok u =>
                    match dict_getitem row "Password" with
                    | Err e => Err e
                    | Ok p => Ok (u, p)
                    end
                end
            end
        end
    end.
Proof.
  intros Hopen. unfold read_credentials.
  rewrite (bind_ok _ _ (get_excel_key_value w)). cbn [outcome snd].
  rewrite (googleSheetConnectNew_ok _ _ Hopen).
  unfold bind, lift, ret, raise; cbn.
  destruct (get_worksheet ss 0) as [[ws | ] | e]; cbn; try reflexivity.
  destruct (get_all_records ws) as [data | e]; cbn; try reflexivity.
  destruct (list_getitem data _) as [row | e]; cbn; try reflexivity.
  destruct (dict_getitem row "Username") as [u | e]; cbn; try reflexivity.
  destruct (dict_getitem row "Password") as [p | e]; cbn; reflexivity.
Qed.

Lemma read_credentials_ok (w : World) (u p : pyval) :
  credentials_read w u p -> outcome (read_credentials w) = Ok (u, p).
Proof.
  intros (ss & ws & init & row & Hopen & Hws & Hdata & Hu & Hp).
  rewrite (read_credentials_opened _ Hopen), Hws, Hdata, list_getitem_last, Hu, Hp.
  reflexivity.
Qed.

(** ** The orchestrator *)

Lemma process_all_req_stops (w : World) (e : exn) :
  outcome (read_credentials w) = Err e ->
  process_all_req w =
    ((trace (read_credentials w) ++ [EvPrint (LogTraceback e)])%list, Ok failure).
Proof.
  intros H. rewrite process_all_req_split, (bind_err _ _ H).
  reflexivity.
Qed.

Lemma process_all_req_reports (w : World) (u p tok msg : pyval) :
  outcome (read_credentials w) = Ok (u, p) ->
  outcome (authenticate w u p) = Ok tok ->
  outcome (checkStausOfService w tok) = Ok msg ->
  process_all_req w =
    finish (trace (read_credentials w) ++ trace (authenticate w u p) ++
            trace (checkStausOfService w tok))
           (post_to_webhook w msg (color_for msg)).
Proof.
  intros Hrc Hauth Hcheck.
  rewrite process_all_req_split, (bind_ok _ _ Hrc). cbn [fst snd].
  unfold report.
  rewrite (bind_ok _ _ Hauth), (bind_ok _ _ Hcheck).
  unfold finish, try_except, bind, ret, py_print, emit.
  destruct (outcome (post_to_webhook w msg (color_for msg))) as [v | e];
    cbn [trace outcome fst snd].
  - rewrite app_nil_r, !app_assoc. reflexivity.
  - cbn [app]. rewrite <- !app_assoc. reflexivity.
Qed.

(** Every run of the orchestrator is of one of two kinds: it stops while
    reading the credentials, or it goes through authentication, status
    check and notification, whatever the first two return. *)
Lemma process_all_req_cases (w : World) :
  (exists e,
      outcome (read_credentials w) = Err e /\
      process_all_req w =
        ((trace (read_credentials w) ++ [EvPrint (LogTraceback e)])%list, Ok failure))
  \/
  (exists u p tok msg,
      outcome (read_credentials w) = Ok (u, p) /\
      outcome (authenticate w u p) = Ok tok /\
      outcome (checkStausOfService w tok) = Ok msg /\
      process_all_req w =
        finish (trace (read_credentials w) ++ trace (authenticate w u p) ++
                trace (checkStausOfService w tok))
               (post_to_webhook w msg (color_for msg))).
Proof.
  destruct (outcome (read_credentials w)) as [[u p] | e] eqn:Hrc.
  - right.
    destruct (authenticate_shape w u p) as (la & tok & Ha).
    destruct (checkStausOfService_shape w tok) as (lc & msg & Hc & _).
    exists u, p, tok, msg.
    assert (Hauth : outcome (authenticate w u p) = Ok tok) by now rewrite Ha.
    assert (Hcheck : outcome (checkStausOfService w tok) = Ok msg) by now rewrite Hc.
    repeat split; auto using process_all_req_reports.
  - left. exists e. split; auto using process_all_req_stops.
Qed.

(** The orchestrator never lets an exception escape. *)
Lemma process_all_req_total (w : World) :
  outcome (process_all_req w) = Ok (VStr "Success") \/
  outcome (process_all_req w) = Ok failure.
Proof.
  destruct (process_all_req_cases w) as [(e & _ & ->) | (u & p & tok & msg & _ & _ & _ & ->)];
    [ now right | ].
  unfold finish. destruct (outcome (post_to_webhook _ _ _)); cbn; auto.
Qed.

(** The calls of the notifier. *)
Lemma post_to_webhook_calls (w : World) (text color : pyval) :
  auth_calls (trace (post_to_webhook w text color)) = [] /\
  status_calls (trace (post_to_webhook w text color)) = [] /\
  webhook_calls (trace (post_to_webhook w text color)) = [(text, color)].
Proof.
  destruct (truthy (webhook_url w)) eqn:Hurl.
  - destruct (is_str text) eqn:Hs.
    + destruct text; try discriminate Hs.
      rewrite (post_to_webhook_str _ _ _ Hurl). cbn. auto.
    + destruct (post_to_webhook_not_str _ _ color Hurl Hs) as [d ->]. cbn. auto.
  - rewrite (post_to_webhook_unconfigured _ _ _ Hurl). cbn. auto.
Qed.

Lemma finish_trace (pre : list event) (m : M pyval) :
  exists logs, trace (finish pre m) = (pre ++ trace m ++ map EvPrint logs)%list.
Proof.
  unfold finish. destruct (outcome m) as [v | e]; cbn.
  - exists []. now rewrite app_nil_r.
  - now exists [LogTraceback e].
Qed.

Lemma authenticate_calls (w : World) (u p : pyval) :
  auth_calls (trace (authenticate w u p)) = [(u, p)] /\
  status_calls (trace (authenticate w u p)) = [] /\
  webhook_calls (trace (authenticate w u p)) = [] /\
  http_calls (trace (authenticate w u p)) = [auth_request w u p].
Proof.
  destruct (authenticate_shape w u p) as (logs & tok & ->). cbn.
  destruct (calls_of_prints logs) as (-> & -> & -> & ->). auto.
Qed.

Lemma checkStausOfService_calls (w : World) (tok : pyval) :
  auth_calls (trace (checkStausOfService w tok)) = [] /\
  status_calls (trace (checkStausOfService w tok)) = [tok] /\
  webhook_calls (trace (checkStausOfService w tok)) = [] /\
  http_calls (trace (checkStausOfService w tok)) = [status_request w tok].
Proof.
  destruct (checkStausOfService_shape w tok) as (logs & msg & -> & _). cbn.
  destruct (calls_of_prints logs) as (-> & -> & -> & ->). auto.
Qed.

(** A run that stops while reading the credentials calls nothing. *)
Lemma stopped_run_calls (w : World) (e : exn) :
  outcome (read_credentials w) = Err e ->
  outcome (process_all_req w) = Ok failure /\
  auth_calls (trace (process_all_req w)) = [] /\
  status_calls (trace (process_all_req w)) = [] /\
  webhook_calls (trace (process_all_req w)) = [] /\
  http_calls (trace (process_all_req w)) = [].
Proof.
  intros H. rewrite (process_all_req_stops _ H). cbn [trace outcome fst snd].
  rewrite auth_calls_app, status_calls_app, webhook_calls_app, http_calls_app.
  destruct (read_credentials_calls w) as (-> & -> & -> & ->). cbn. auto.
Qed.

(** A run that has the credentials calls the authenticator, the status
    check and the notifier once each, in this order, each with what the
    previous one returned. *)
Lemma reporting_run_calls_of (w : World) (u p tok msg : pyval) :
  outcome (read_credentials w) = Ok (u, p) ->
  outcome (authenticate w u p) = Ok tok ->
  outcome (checkStausOfService w tok) = Ok msg ->
  auth_calls (trace (process_all_req w)) = [(u, p)] /\
  status_calls (trace (process_all_req w)) = [tok] /\
  webhook_calls (trace (process_all_req w)) = [(msg, color_for msg)].
Proof.
  intros Hrc Hauth Hcheck.
  rewrite (process_all_req_reports w Hrc Hauth Hcheck).
  destruct (finish_trace
              (trace (read_credentials w) ++ trace (authenticate w u p) ++
               trace (checkStausOfService w tok))
              (post_to_webhook w msg (color_for msg))) as [logs ->].
  rewrite !auth_calls_app, !status_calls_app, !webhook_calls_app.
  destruct (read_credentials_calls w) as (-> & -> & -> & _).
  destruct (authenticate_calls w u p) as (-> & -> & -> & _).
  destruct (checkStausOfService_calls w tok) as (-> & -> & -> & _).
  destruct (post_to_webhook_calls w msg (color_for msg)) as (-> & -> & ->).
  destruct (calls_of_prints logs) as (-> & -> & -> & _).
  cbn. auto.
Qed.

Lemma reporting_run_calls (w : World) (u p : pyval) :
  outcome (read_credentials w) = Ok (u, p) ->
  exists tok msg,
    outcome (authenticate w u p) = Ok tok /\
    outcome (checkStausOfService w tok) = Ok msg /\
    auth_calls (trace (process_all_req w)) = [(u, p)] /\
    status_calls (trace (process_all_req w)) = [tok] /\
    webhook_calls (trace (process_all_req w)) = [(msg, color_for msg)].
Proof.
  intros Hrc.
  destruct (authenticate_shape w u p) as (la & tok & Ha).
  destruct (checkStausOfService_shape w tok) as (lc & msg & Hc & _).
  assert (Hauth : outcome (authenticate w u p) = Ok tok) by now rewrite Ha.
  assert (Hcheck : outcome (checkStausOfService w tok) = Ok msg) by now rewrite Hc.
  exists tok, msg. repeat (split; [ assumption | ]).
  exact (reporting_run_calls_of w Hrc Hauth Hcheck).
Qed.

Lemma py_eq_str_spec (v : pyval) (lit : string) :
  py_eq_str v lit = true <-> v = VStr lit.
Proof.
  destruct v; cbn; try (split; [ discriminate | discriminate ]).
  rewrite String.eqb_eq. split; [ now intros -> | now intros [= ->] ].
Qed.

Lemma color_for_spec (msg : pyval) :
  (msg = VStr "Running" -> color_for msg = VStr "Good") /\
  (msg <> VStr "Running" -> color_for msg = VStr "Warning").
Proof.
  unfold color_for. destruct (py_eq_str msg "Running") eqn:H.
  - apply py_eq_str_spec in H. split; [ reflexivity | congruence ].
  - split; [ | reflexivity ].
    intros ->. discriminate H.
Qed.

(** A failed authentication returns the failure pair, and the run goes
    on: the status check receives the pair as its token. *)
Lemma authenticate_fails (w : World) (u p : pyval) :
  auth_fails w u p -> outcome (authenticate w u p) = Ok failure.
Proof.
  unfold auth_fails, authenticate, apiCaller, requests_request, raise_for_status,
    try_except, bind, lift, emit, py_print, ret, raise.
  cbn [py_str py_repr append]. fold (auth_request w u p).
  destruct (http w (auth_request w u p)) as [resp | e]; cbn.
  - destruct ((400 <=? status_code resp) && (status_code resp <? 600)); cbn;
      [ reflexivity | ].
    destruct (json resp) as [body | e]; cbn; [ | reflexivity ].
    intros [e He]. now rewrite He.
  - intros _. now destruct (is_request_exception e).
Qed.

Lemma failed_auth_run (w : World) (u p : pyval) :
  credentials_read w u p ->
  auth_fails w u p ->
  status_calls (trace (process_all_req w)) = [failure].
Proof.
  intros Hrc Hfail.
  apply read_credentials_ok in Hrc. apply authenticate_fails in Hfail.
  destruct (checkStausOfService_shape w failure) as (logs & msg & Hc & _).
  assert (Hcheck : outcome (checkStausOfService w failure) = Ok msg) by now rewrite Hc.
  exact (proj1 (proj2 (reporting_run_calls_of w Hrc Hfail Hcheck))).
Qed.

(** * The claims *)

(** C1.  The claim: when authentication fails, the orchestrator never
    invokes the status check nor the notifier.  The code has no guard on
    the value [authenticate] returns: in the run of scenario 4 (the auth
    endpoint answers 401) the authenticator returns the failure pair,
    the status check is invoked with that pair as its token (header
    [Bearer (None, None)]), and the notifier is invoked with the status
    check's own failure pair and color [Warning]; without a webhook URL
    the same run even returns [Success]. *)
Theorem C1_auth_failure_reaches_status_check :
  outcome (authenticate Scenario.auth_401 (VStr "svc") (VStr "pw1")) = Ok failure /\
  status_calls (trace (process_all_req Scenario.auth_401)) = [failure] /\
  http_calls (trace (process_all_req Scenario.auth_401)) =
    [auth_request Scenario.auth_401 (VStr "svc") (VStr "pw1");
     {| req_method := "GET"; req_url := VStr "https://status";
        req_headers := [("Authorization", "Bearer (None, None)")];
        req_json := VNone |}] /\
  webhook_calls (trace (process_all_req Scenario.auth_401)) =
    [(failure, VStr "Warning")] /\
  outcome (process_all_req Scenario.auth_401_no_hook) = Ok (VStr "Success").
Proof. vm_compute. repeat split. Qed.

(** C2.  When the credential store cannot be opened, the orchestrator
    makes no authentication call, no status call, no webhook call (no
    HTTP request at all) and returns the failure signal; a keys table
    without the entry [WINDOWS_SERVER_PASS] makes the looked-up
    identifier the empty string. *)
Theorem C2_unopened_store_stops_run (w : World) :
  (forall entries e,
      keys_file w = Ok (VDict entries) ->
      dict_getitem entries "WINDOWS_SERVER_PASS" = Err e ->
      looked_up_key w = VStr EmptyString) /\
  (forall e,
      open_by_key w (looked_up_key w) = Err e ->
      outcome (process_all_req w) = Ok failure /\
      auth_calls (trace (process_all_req w)) = [] /\
      status_calls (trace (process_all_req w)) = [] /\
      webhook_calls (trace (process_all_req w)) = [] /\
      http_calls (trace (process_all_req w)) = []).
Proof.
  split.
  - intros entries e Hfile Hmiss. exact (get_excel_key_missing w Hfile Hmiss).
  - intros e Hopen.
    exact (stopped_run_calls w (read_credentials_unopened w Hopen)).
Qed.

Lemma C2_unopened_store_witness :
  looked_up_key Scenario.no_key = VStr EmptyString /\
  outcome (process_all_req Scenario.no_key) = Ok failure /\
  auth_calls (trace (process_all_req Scenario.no_key)) = [] /\
  status_calls (trace (process_all_req Scenario.no_key)) = [] /\
  webhook_calls (trace (process_all_req Scenario.no_key)) = [] /\
  http_calls (trace (process_all_req Scenario.no_key)) = [].
Proof.
  destruct (C2_unopened_store_stops_run Scenario.no_key) as [Hkey Hrun].
  split.
  - apply (Hkey [] (KeyError "WINDOWS_SERVER_PASS")); reflexivity.
  - apply (Hrun (OtherError "SpreadsheetNotFound")). reflexivity.
Defined.

(** C3.  Whenever the notifier is invoked, its color is [Good] if its
    text is the label [Running] and [Warning] for any other text; and
    whenever the status check is invoked, the notifier is invoked once,
    with what the status check returned (a label or the failure pair)
    as text and the color this policy gives. *)
Theorem C3_color_policy (w : World) :
  (forall text color,
      In (EvPostToWebhook text color) (trace (process_all_req w)) ->
      (text = VStr "Running" -> color = VStr "Good") /\
      (text <> VStr "Running" -> color = VStr "Warning")) /\
  (forall tok,
      In (EvCheckStatus tok) (trace (process_all_req w)) ->
      exists msg,
        outcome (checkStausOfService w tok) = Ok msg /\
        webhook_calls (trace (process_all_req w)) =
          [(msg, if py_eq_str msg "Running" then VStr "Good" else VStr "Warning")]) /\
  py_eq_str failure "Running" = false /\
  py_eq_str VNone "Running" = false.
Proof.
  assert (Hkind :
    (webhook_calls (trace (process_all_req w)) = [] /\
     status_calls (trace (process_all_req w)) = []) \/
    (exists tok msg,
        outcome (checkStausOfService w tok) = Ok msg /\
        status_calls (trace (process_all_req w)) = [tok] /\
        webhook_calls (trace (process_all_req w)) = [(msg, color_for msg)])).
  { destruct (outcome (read_credentials w)) as [[u p] | e] eqn:Hrc.
    - right. destruct (reporting_run_calls w Hrc)
        as (tok & msg & _ & Hcheck & _ & Hs & Hw).
      now exists tok, msg.
    - left. destruct (stopped_run_calls w Hrc) as (_ & _ & Hs & Hw & _). auto. }
  split; [ | split; [ | split; reflexivity ] ].
  - intros text color H. apply webhook_calls_In in H.
    destruct Hkind as [[Hw _] | (tok & msg & _ & _ & Hw)]; rewrite Hw in H;
      [ contradiction | ].
    destruct H as [[= <- <-] | []]. apply color_for_spec.
  - intros tok H. apply status_calls_In in H.
    destruct Hkind as [[_ Hs] | (tok' & msg & Hcheck & Hs & Hw)]; rewrite Hs in H;
      [ contradiction | ].
    destruct H as [<- | []]. exists msg. split; assumption.
Qed.

Lemma C3_color_policy_witness :
  ((VStr "Stopped" = VStr "Running" -> VStr "Warning" = VStr "Good") /\
   (VStr "Stopped" <> VStr "Running" -> VStr "Warning" = VStr "Warning")) /\
  (exists msg,
      outcome (checkStausOfService Scenario.running (VStr "abc")) = Ok msg /\
      webhook_calls (trace (process_all_req Scenario.running)) =
        [(msg, if py_eq_str msg "Running" then VStr "Good" else VStr "Warning")]).
Proof.
  split.
  - apply (proj1 (C3_color_policy Scenario.stopped) (VStr "Stopped") (VStr "Warning")).
    vm_compute. tauto.
  - apply (proj1 (proj2 (C3_color_policy Scenario.running)) (VStr "abc")).
    vm_compute. tauto.
Defined.

(** ** The notifier *)

Lemma text_blocks_card (message color : pyval) :
  text_blocks (card_body message color) = [(message, color)].
Proof. reflexivity. Qed.

(** A run whose earlier steps all succeeded ends as the notifier does,
    called with the reported label and its color. *)
Lemma succeeding_run (w : World) (label : string) :
  prior_steps_succeed w label ->
  exists u p tok,
    process_all_req w =
      finish (trace (read_credentials w) ++
              [EvAuthenticate u p; EvHttp (auth_request w u p)] ++
              [EvCheckStatus tok; EvHttp (status_request w tok)])
             (post_to_webhook w (VStr label) (color_for (VStr label))).
Proof.
  intros (u & p & tok & Hrc & Hauth & Hcheck).
  exists u, p, tok.
  apply read_credentials_ok in Hrc.
  apply authenticate_ok in Hauth.
  apply checkStausOfService_ok in Hcheck.
  rewrite (@process_all_req_reports w u p tok (VStr label) Hrc);
    rewrite ?Hauth, ?Hcheck; reflexivity.
Qed.

(** In the scenario worlds with the key present and an accepting auth
    endpoint, every step before the notification succeeds. *)
Lemma scenario_steps_succeed (hook : pyval) (label : string) (hook_code : Z) :
  prior_steps_succeed
    (Scenario.world Scenario.keys_ok hook label true hook_code) label.
Proof.
  exists (VStr "svc"), (VStr "pw1"), (VStr "abc").
  split; [ | split ].
  - exists Scenario.sheet, {| get_all_records := Ok Scenario.sheet_rows |},
      [[("Username", VStr "old"); ("Password", VStr "pw0")]],
      [("Username", VStr "svc"); ("Password", VStr "pw1")].
    repeat split; reflexivity.
  - exists {| status_code := 200; response_text := EmptyString;
              json := Ok (VDict [("token", VStr "abc")]) |},
      (VDict [("token", VStr "abc")]).
    repeat split; reflexivity.
  - exists {| status_code := 200; response_text := EmptyString;
              json := Ok (VDict [("status", VDict [("status", VStr label)])]) |},
      (VDict [("status", VDict [("status", VStr label)])]),
      (VDict [("status", VStr label)]), (VStr label).
    repeat split; reflexivity.
Qed.

(** C4, as stated, fails: the notifier does not post for every text
    argument.  For the failure pair the orchestrator passes after a
    failed status check it raises before any request, and without a
    webhook URL it posts nothing, whatever the text. *)
Lemma C4_counterexample :
  ~ (forall w text color,
        exists req, In req (http_calls (trace (post_to_webhook w text color)))) /\
  http_calls (trace (post_to_webhook Scenario.auth_401
                       (VTuple [VNone; VNone]) (VStr "Warning"))) = [] /\
  http_calls (trace (post_to_webhook Scenario.running_no_hook
                       (VStr "Running") (VStr "Good"))) = [].
Proof.
  split; [ | split; reflexivity ].
  intros H.
  destruct (H Scenario.auth_401 (VTuple [VNone; VNone]) (VStr "Warning"))
    as [req Hin].
  exact Hin.
Qed.

(** C4, amended.  With a webhook URL configured, for every text that is
    a string the notifier makes exactly one HTTP request: a POST,
    without headers, to the webhook URL, of the adaptive card whose
    single text block reads ["BMS Service is "] followed by the text
    and carries the given color.  With the URL unset or empty, or for a
    text that is not a string, it makes no HTTP request.  In every run
    whose earlier steps succeeded with the status label [Running] and
    with a URL configured (the end-to-end run of scenario 1 among them),
    the notifier is called with [Running] and [Good], and the third and
    last request of the run is that card with the text
    [BMS Service is Running] and the color [Good]. *)
Theorem C4_adaptive_card (w : World) (color : pyval) :
  (forall s,
      truthy (webhook_url w) = true ->
      exists req,
        http_calls (trace (post_to_webhook w (VStr s) color)) = [req] /\
        req_method req = "POST" /\
        req_url req = webhook_url w /\
        req_headers req = [] /\
        req_json req = card_body (VStr ("BMS Service is " ++ s)) color /\
        text_blocks (req_json req) = [(VStr ("BMS Service is " ++ s), color)]) /\
  (forall text,
      webhook_url w = VNone \/ webhook_url w = VStr EmptyString \/
      is_str text = false ->
      http_calls (trace (post_to_webhook w text color)) = []) /\
  (prior_steps_succeed w "Running" ->
   truthy (webhook_url w) = true ->
   webhook_calls (trace (process_all_req w)) = [(VStr "Running", VStr "Good")] /\
   exists u p tok,
     http_calls (trace (process_all_req w)) =
       [auth_request w u p;
        status_request w tok;
        webhook_request (webhook_url w)
          (card_body (VStr "BMS Service is Running") (VStr "Good"))]) /\
  (webhook_calls (trace (process_all_req Scenario.running)) =
     [(VStr "Running", VStr "Good")] /\
   map (fun req => (req_url req, text_blocks (req_json req)))
       (http_calls (trace (process_all_req Scenario.running)))
   = [(VStr "https://auth", []);
      (VStr "https://status", []);
      (VStr "https://hook", [(VStr "BMS Service is Running", VStr "Good")])]).
Proof.
  split; [ | split; [ | split; [ | split; reflexivity ] ] ].
  - intros s Hurl.
    exists (webhook_request (webhook_url w)
              (card_body (VStr ("BMS Service is " ++ s)) color)).
    rewrite (post_to_webhook_str _ s _ Hurl). cbn. auto 10.
  - intros text Hcase.
    destruct (truthy (webhook_url w)) eqn:Hurl.
    + destruct Hcase as [Hnone | [Hempty | Hs]].
      * rewrite Hnone in Hurl. discriminate Hurl.
      * rewrite Hempty in Hurl. discriminate Hurl.
      * destruct (post_to_webhook_not_str _ _ color Hurl Hs) as [d ->].
        reflexivity.
    + now rewrite (post_to_webhook_unconfigured _ _ _ Hurl).
  - intros Hsteps Hurl.
    destruct (succeeding_run Hsteps) as (u & p & tok & ->).
    rewrite (post_to_webhook_str _ "Running" _ Hurl).
    unfold finish; cbn [outcome trace fst snd].
    rewrite !webhook_calls_app, !http_calls_app.
    destruct (read_credentials_calls w) as (_ & _ & -> & ->).
    split; [ reflexivity | ]. exists u, p, tok. reflexivity.
Qed.

Lemma C4_adaptive_card_witness :
  (exists req,
      http_calls (trace (post_to_webhook Scenario.stopped (VStr "Stopped")
                           (VStr "Warning"))) = [req] /\
      req_method req = "POST" /\
      req_url req = webhook_url Scenario.stopped /\
      req_headers req = [] /\
      req_json req = card_body (VStr "BMS Service is Stopped") (VStr "Warning") /\
      text_blocks (req_json req) =
        [(VStr "BMS Service is Stopped", VStr "Warning")]) /\
  http_calls (trace (post_to_webhook Scenario.running_no_hook (VStr "Running")
                       (VStr "Good"))) = [] /\
  http_calls (trace (post_to_webhook Scenario.running (VTuple [VNone; VNone])
                       (VStr "Warning"))) = [] /\
  webhook_calls (trace (process_all_req Scenario.running)) =
    [(VStr "Running", VStr "Good")].
Proof.
  split; [ | split; [ | split ] ].
  - apply (proj1 (C4_adaptive_card Scenario.stopped (VStr "Warning")) "Stopped").
    reflexivity.
  - apply (proj1 (proj2 (C4_adaptive_card Scenario.running_no_hook (VStr "Good")))
             (VStr "Running")).
    left. reflexivity.
  - apply (proj1 (proj2 (C4_adaptive_card Scenario.running (VStr "Warning")))
             (VTuple [VNone; VNone])).
    right. right. reflexivity.
  - apply (proj1 (proj2 (proj2 (C4_adaptive_card Scenario.running (VStr "Good"))))).
    + apply scenario_steps_succeed.
    + reflexivity.
Defined.

(** C5.  With the webhook URL unset or empty, the notifier makes no HTTP
    call and only prints that the URL is not configured; a run whose
    earlier steps all succeeded then makes the two API requests only and
    returns [Success]. *)
Theorem C5_unconfigured_webhook (w : World) :
  webhook_url w = VNone \/ webhook_url w = VStr EmptyString ->
  (forall text color,
      post_to_webhook w text color =
        ([EvPostToWebhook text color; EvPrint LogWebhookUnconfigured], Ok VNone)) /\
  (forall label,
      prior_steps_succeed w label ->
      outcome (process_all_req w) = Ok (VStr "Success") /\
      exists u p tok,
        http_calls (trace (process_all_req w)) =
          [auth_request w u p; status_request w tok]).
Proof.
  intros Hurl.
  assert (Hfalse : truthy (webhook_url w) = false)
    by (destruct Hurl as [-> | ->]; reflexivity).
  split.
  - intros text color. now apply post_to_webhook_unconfigured.
  - intros label Hsteps.
    destruct (succeeding_run Hsteps) as (u & p & tok & ->).
    rewrite (post_to_webhook_unconfigured _ _ _ Hfalse).
    unfold finish; cbn [outcome trace fst snd]. split; [ reflexivity | ].
    exists u, p, tok.
    rewrite !http_calls_app.
    destruct (read_credentials_calls w) as (_ & _ & _ & ->). reflexivity.
Qed.

Lemma C5_unconfigured_webhook_witness :
  post_to_webhook Scenario.running_no_hook (VStr "Running") (VStr "Good") =
    ([EvPostToWebhook (VStr "Running") (VStr "Good");
      EvPrint LogWebhookUnconfigured], Ok VNone) /\
  outcome (process_all_req Scenario.running_no_hook) = Ok (VStr "Success") /\
  exists u p tok,
    http_calls (trace (process_all_req Scenario.running_no_hook)) =
      [auth_request Scenario.running_no_hook u p;
       status_request Scenario.running_no_hook tok].
Proof.
  destruct (C5_unconfigured_webhook Scenario.running_no_hook) as [Hpost Hrun].
  - left. reflexivity.
  - split; [ apply Hpost | apply (Hrun "Running") ].
    apply scenario_steps_succeed.
Defined.

(** C6.  When the webhook call fails in transport or is answered with a
    status other than 202, the notifier only prints the error: a run
    whose earlier steps all succeeded still returns [Success], and its
    trace ends with the webhook request and that one log line. *)
Theorem C6_webhook_failure_is_logged_only (w : World) (label : string) :
  prior_steps_succeed w label ->
  truthy (webhook_url w) = true ->
  let req := webhook_request (webhook_url w)
               (card_body (VStr ("BMS Service is " ++ label))
                          (color_for (VStr label))) in
  webhook_failed (http w req) ->
  outcome (process_all_req w) = Ok (VStr "Success") /\
  exists pre,
    trace (process_all_req w) =
      (pre ++ [EvHttp req;
               EvPrint match http w req with
                       | Ok resp =>
                           LogWebhookFailed (status_code resp) (response_text resp)
                       | Err e => LogWebhookError e
                       end])%list.
Proof.
  intros Hsteps Hurl req Hfail.
  assert (Hlog : webhook_log label (http w req) =
                 match http w req with
                 | Ok resp => LogWebhookFailed (status_code resp) (response_text resp)
                 | Err e => LogWebhookError e
                 end).
  { unfold webhook_log, webhook_failed in *.
    destruct (http w req) as [resp | e]; [ | reflexivity ].
    destruct (Z.eqb_spec (status_code resp) 202); [ contradiction | reflexivity ]. }
  destruct (succeeding_run Hsteps) as (u & p & tok & ->).
  rewrite (post_to_webhook_str _ label _ Hurl). fold req. rewrite Hlog.
  unfold finish; cbn [outcome trace fst snd]. split; [ reflexivity | ].
  exists (trace (read_credentials w) ++
          [EvAuthenticate u p; EvHttp (auth_request w u p);
           EvCheckStatus tok; EvHttp (status_request w tok);
           EvPostToWebhook (VStr label) (color_for (VStr label))])%list.
  rewrite <- !app_assoc. reflexivity.
Qed.

Lemma C6_webhook_failure_witness :
  outcome (process_all_req Scenario.running_hook_500) = Ok (VStr "Success") /\
  exists pre,
    trace (process_all_req Scenario.running_hook_500) =
      (pre ++ [EvHttp (webhook_request (VStr "https://hook")
                         (card_body (VStr "BMS Service is Running") (VStr "Good")));
               EvPrint (LogWebhookFailed 500 EmptyString)])%list.
Proof.
  apply (@C6_webhook_failure_is_logged_only Scenario.running_hook_500 "Running").
  - apply scenario_steps_succeed.
  - reflexivity.
  - vm_compute. discriminate.
Defined.

(** ** The authenticator *)

(** C7, as stated, fails: the request of [authenticate] does carry a
    bearer [Authorization] header, [apiCaller] builds it from the token
    [None] it is given. *)
Lemma C7_counterexample :
  ~ (forall req,
        In req (http_calls
                  (trace (authenticate Scenario.running (VStr "svc") (VStr "pw1")))) ->
        carries_bearer req = false).
Proof.
  intros H.
  assert (Hin : In (auth_request Scenario.running (VStr "svc") (VStr "pw1"))
                   (http_calls
                      (trace (authenticate Scenario.running (VStr "svc") (VStr "pw1")))))
    by (left; reflexivity).
  specialize (H _ Hin). discriminate H.
Qed.

(** C7, amended.  For every username and password, [authenticate] makes
    exactly one HTTP request: a POST to the configured auth endpoint
    with JSON body [{"username": username, "password": password}] and
    the header [Authorization: Bearer None]; when the response passes
    [raise_for_status] and its JSON body has a [token] field, that field
    is returned. *)
Theorem C7_authenticate_request (w : World) (username password : pyval) :
  let req := {| req_method := "POST";
                req_url := auth_api_url w;
                req_headers := [("Authorization", "Bearer None")];
                req_json := VDict [("username", username); ("password", password)] |} in
  http_calls (trace (authenticate w username password)) = [req] /\
  (forall resp body token,
      http w req = Ok resp ->
      accepted resp ->
      json resp = Ok body ->
      py_getitem body "token" = Ok token ->
      outcome (authenticate w username password) = Ok token).
Proof.
  intros req. split.
  - apply authenticate_calls.
  - intros resp body token Hhttp Hacc Hjson Htok.
    rewrite (@authenticate_ok w username password token); [ reflexivity | ].
    now exists resp, body.
Qed.

Lemma C7_authenticate_request_witness :
  outcome (authenticate Scenario.running (VStr "svc") (VStr "pw1")) = Ok (VStr "abc").
Proof.
  apply (proj2 (C7_authenticate_request Scenario.running (VStr "svc") (VStr "pw1"))
           {| status_code := 200; response_text := EmptyString;
              json := Ok (VDict [("token", VStr "abc")]) |}
           (VDict [("token", VStr "abc")]) (VStr "abc"));
    reflexivity.
Defined.

(** ** The credentials *)

Lemma read_credentials_unusable (w : World) (ss : Spreadsheet) :
  open_by_key w (looked_up_key w) = Ok ss ->
  worksheet_unusable ss ->
  exists e, outcome (read_credentials w) = Err e.
Proof.
  intros Hopen Hbad. rewrite (read_credentials_opened _ Hopen).
  unfold worksheet_unusable in Hbad.
  destruct (get_worksheet ss 0) as [[ws | ] | e]; eauto.
  destruct (get_all_records ws) as [data | e]; eauto.
  subst data. cbn. eauto.
Qed.

(** C8.  For a spreadsheet that opens: if its first worksheet has at
    least one data row, the authenticator is called once, with the
    [Username] and [Password] fields of the last row; if the worksheet
    is inaccessible or has no data row, the run returns the failure
    signal and the authenticator is never called. *)
Theorem C8_last_row_credentials (w : World) (ss : Spreadsheet) :
  open_by_key w (looked_up_key w) = Ok ss ->
  (forall ws earlier row u p,
      get_worksheet ss 0 = Ok (Some ws) ->
      get_all_records ws = Ok (earlier ++ [row])%list ->
      dict_getitem row "Username" = Ok u ->
      dict_getitem row "Password" = Ok p ->
      auth_calls (trace (process_all_req w)) = [(u, p)]) /\
  (worksheet_unusable ss ->
      outcome (process_all_req w) = Ok failure /\
      auth_calls (trace (process_all_req w)) = []).
Proof.
  intros Hopen. split.
  - intros ws earlier row u p Hws Hdata Hu Hp.
    assert (Hrc : outcome (read_credentials w) = Ok (u, p)).
    { apply read_credentials_ok. now exists ss, ws, earlier, row. }
    destruct (reporting_run_calls w Hrc) as (tok & msg & _ & _ & Ha & _).
    exact Ha.
  - intros Hbad.
    destruct (read_credentials_unusable w Hopen Hbad) as [e He].
    destruct (stopped_run_calls w He) as (Hout & Ha & _). auto.
Qed.

Lemma C8_last_row_credentials_witness :
  auth_calls (trace (process_all_req Scenario.running)) = [(VStr "svc", VStr "pw1")] /\
  outcome (process_all_req Scenario.no_rows) = Ok failure /\
  auth_calls (trace (process_all_req Scenario.no_rows)) = [].
Proof.
  split;
    [ | apply (proj2 (@C8_last_row_credentials Scenario.no_rows Scenario.empty_sheet
                        eq_refl)); reflexivity ].
  apply (proj1 (@C8_last_row_credentials Scenario.running Scenario.sheet eq_refl)
           {| get_all_records := Ok Scenario.sheet_rows |}
           [[("Username", VStr "old"); ("Password", VStr "pw0")]]
           [("Username", VStr "svc"); ("Password", VStr "pw1")]);
    reflexivity.
Defined.

(** ** A text that is not a string *)

(** C9, as stated, fails: without a webhook URL the notifier returns
    before it builds the message, so the failure pair as text raises
    nothing and the run completes. *)
Lemma C9_counterexample :
  ~ (forall w text color,
        is_str text = false ->
        exists detail,
          outcome (post_to_webhook w text color) = Err (TypeError detail)) /\
  webhook_calls (trace (process_all_req Scenario.auth_401_no_hook)) =
    [(failure, VStr "Warning")] /\
  outcome (process_all_req Scenario.auth_401_no_hook) = Ok (VStr "Success").
Proof.
  split; [ | split; reflexivity ].
  intros H.
  destruct (H Scenario.auth_401_no_hook failure (VStr "Warning") eq_refl) as [d Hd].
  discriminate Hd.
Qed.

(** C9, amended.  With a webhook URL configured, for every text that is
    not a string (in particular the failure pair of a failed status
    check) the notifier raises a [TypeError] while building the message,
    before any HTTP call; a run that calls the notifier with such a text
    ends in the orchestrator's handler, which prints the traceback of
    that [TypeError], and returns the failure signal.  With the webhook
    URL unset or empty, the notifier returns at its guard for every
    text, string or not, after printing one line, and every run that
    calls it completes and returns [Success]. *)
Theorem C9_non_string_text_aborts (w : World) :
  (truthy (webhook_url w) = true ->
   (forall text color,
       is_str text = false ->
       exists detail,
         post_to_webhook w text color =
           ([EvPostToWebhook text color], Err (TypeError detail))) /\
   (forall text color,
       In (EvPostToWebhook text color) (trace (process_all_req w)) ->
       is_str text = false ->
       outcome (process_all_req w) = Ok failure /\
       exists pre detail,
         trace (process_all_req w) =
           (pre ++ [EvPostToWebhook text color;
                    EvPrint (LogTraceback (TypeError detail))])%list)) /\
  (webhook_url w = VNone \/ webhook_url w = VStr EmptyString ->
   (forall text color,
       post_to_webhook w text color =
         ([EvPostToWebhook text color; EvPrint LogWebhookUnconfigured], Ok VNone)) /\
   (forall text color,
       In (EvPostToWebhook text color) (trace (process_all_req w)) ->
       outcome (process_all_req w) = Ok (VStr "Success") /\
       exists pre,
         trace (process_all_req w) =
           (pre ++ [EvPostToWebhook text color;
                    EvPrint LogWebhookUnconfigured])%list)) /\
  is_str failure = false.
Proof.
  split; [ | split; [ | reflexivity ] ].
  - intros Hurl. split.
    + intros text color Hs. now apply post_to_webhook_not_str.
    + intros text color Hin Hs.
      apply webhook_calls_In in Hin.
      destruct (process_all_req_cases w)
        as [(e & He & _) | (u & p & tok & msg & Hrc & Hauth & Hcheck & Heq)].
      * destruct (stopped_run_calls w He) as (_ & _ & _ & Hw & _).
        rewrite Hw in Hin. destruct Hin.
      * destruct (reporting_run_calls_of w Hrc Hauth Hcheck) as (_ & _ & Hw).
        rewrite Hw in Hin. destruct Hin as [[= <- <-] | []].
        destruct (post_to_webhook_not_str w msg (color_for msg) Hurl Hs) as [d Hpost].
        rewrite Heq, Hpost. unfold finish; cbn [outcome trace fst snd].
        split; [ reflexivity | ].
        eexists _, d. cbn [app]. reflexivity.
  - intros Hurl.
    assert (Hfalse : truthy (webhook_url w) = false)
      by (destruct Hurl as [-> | ->]; reflexivity).
    split.
    + intros text color. now apply post_to_webhook_unconfigured.
    + intros text color Hin.
      apply webhook_calls_In in Hin.
      destruct (process_all_req_cases w)
        as [(e & He & _) | (u & p & tok & msg & Hrc & Hauth & Hcheck & Heq)].
      * destruct (stopped_run_calls w He) as (_ & _ & _ & Hw & _).
        rewrite Hw in Hin. destruct Hin.
      * destruct (reporting_run_calls_of w Hrc Hauth Hcheck) as (_ & _ & Hw).
        rewrite Hw in Hin. destruct Hin as [[= <- <-] | []].
        rewrite Heq, (post_to_webhook_unconfigured _ _ _ Hfalse).
        unfold finish; cbn [outcome trace fst snd].
        split; [ reflexivity | ]. eexists. reflexivity.
Qed.

Lemma C9_non_string_text_witness :
  ((exists detail,
       post_to_webhook Scenario.auth_401 failure (VStr "Warning") =
         ([EvPostToWebhook failure (VStr "Warning")], Err (TypeError detail))) /\
   outcome (process_all_req Scenario.auth_401) = Ok failure) /\
  (post_to_webhook Scenario.auth_401_no_hook failure (VStr "Warning") =
     ([EvPostToWebhook failure (VStr "Warning"); EvPrint LogWebhookUnconfigured],
      Ok VNone) /\
   outcome (process_all_req Scenario.auth_401_no_hook) = Ok (VStr "Success")).
Proof.
  split.
  - destruct (proj1 (C9_non_string_text_aborts Scenario.auth_401) eq_refl)
      as (Hpost & Hrun).
    split.
    + apply Hpost. reflexivity.
    + apply (Hrun failure (VStr "Warning")); [ vm_compute; tauto | reflexivity ].
  - destruct (proj1 (proj2 (C9_non_string_text_aborts Scenario.auth_401_no_hook))
                (or_introl eq_refl)) as (Hpost & Hrun).
    split.
    + apply Hpost.
    + apply (Hrun failure (VStr "Warning")). vm_compute. tauto.
Defined.

(** ** A failed connection *)

(** C10.  When the connection fails, [googleSheetConnectNew] returns the
    pair [(None, None)]; the pair is truthy, so the guard
    [if not spreadsheet] does not fire on it; the run stops at
    [get_worksheet], whose [AttributeError] on the pair is what the
    orchestrator's handler catches before it returns the failure
    signal. *)
Theorem C10_failed_connection_passes_guard (w : World) (key : pyval) (e : exn) :
  open_by_key w key = Err e ->
  outcome (googleSheetConnectNew w key) = Ok (OVal (VTuple [VNone; VNone])) /\
  obj_truthy (OVal (VTuple [VNone; VNone])) = true /\
  call_get_worksheet (OVal (VTuple [VNone; VNone])) 0 =
    Err (AttributeError "get_worksheet") /\
  (key = looked_up_key w ->
   process_all_req w =
     ((trace (get_excel_key w "WINDOWS_SERVER_PASS") ++
       [EvGoogleSheetConnect key;
        EvPrint (LogSheetFail e);
        EvPrint (LogTraceback e);
        EvPrint (LogTraceback (AttributeError "get_worksheet"))])%list,
      Ok failure)).
Proof.
  intros Hopen. split; [ | split; [ reflexivity | split; [ reflexivity | ] ] ].
  - now rewrite (googleSheetConnectNew_err _ _ Hopen).
  - intros ->.
    rewrite (process_all_req_stops w (read_credentials_unopened w Hopen)).
    rewrite (read_credentials_unopened_trace w Hopen), <- app_assoc.
    reflexivity.
Qed.

Lemma C10_failed_connection_witness :
  outcome (googleSheetConnectNew Scenario.no_key (VStr EmptyString)) =
    Ok (OVal (VTuple [VNone; VNone])) /\
  process_all_req Scenario.no_key =
    ([EvGoogleSheetConnect (VStr EmptyString);
      EvPrint (LogSheetFail (OtherError "SpreadsheetNotFound"));
      EvPrint (LogTraceback (OtherError "SpreadsheetNotFound"));
      EvPrint (LogTraceback (AttributeError "get_worksheet"))],
     Ok failure).
Proof.
  destruct (@C10_failed_connection_passes_guard Scenario.no_key (VStr EmptyString)
              (OtherError "SpreadsheetNotFound") eq_refl) as (Hconn & _ & _ & Hrun).
  split; [ exact Hconn | apply Hrun; reflexivity ].
Defined.

(** * Further properties of the script *)

(** ** [apiCaller] *)

(** X1.  [apiCaller] hands exactly one request to [requests], with the
    method, URL and JSON payload it was given and the header
    [Authorization: Bearer <str(token)>]; it returns a response exactly
    when the transport answered with that response and its status is
    below 400 or at least 600. *)
Theorem X1_apiCaller_returns_accepted_response
  (w : World) (url : pyval) (reqType : string) (jsonPayload token : pyval) :
  let req := {| req_method := reqType;
                req_url := url;
                req_headers :=
                  [("Authorization", "Bearer " ++ py_str (repr_str w) token)];
                req_json := jsonPayload |} in
  http_calls (trace (apiCaller w url reqType jsonPayload token)) = [req] /\
  (forall resp,
      outcome (apiCaller w url reqType jsonPayload token) = Ok resp <->
      http w req = Ok resp /\ (status_code resp < 400 \/ 600 <= status_code resp)).
Proof.
  intros req.
  unfold apiCaller, requests_request, raise_for_status, try_except, bind,
    lift, emit, py_print, ret, raise.
  fold req.
  destruct (http w req) as [r | e]; cbn.
  - destruct (Z.leb_spec 400 (status_code r)) as [Hlo | Hlo];
      destruct (Z.ltb_spec (status_code r) 600) as [Hhi | Hhi]; cbn;
      (split; [ reflexivity | ]); intros resp; split;
      try (intros [= <-]; split; [ reflexivity | lia ]);
      try (intros [[= <-] Hr]; first [ reflexivity | lia ]);
      try discriminate.
  - destruct (is_request_exception e); cbn;
      (split; [ reflexivity | ]); intros resp; split;
      try discriminate; intros [H _]; discriminate H.
Qed.

Lemma X1_apiCaller_witness :
  outcome (apiCaller Scenario.running (VStr "https://status") "GET" VNone (VStr "abc"))
  = Ok {| status_code := 200; response_text := EmptyString;
          json := Ok (VDict [("status", VDict [("status", VStr "Running")])]) |}.
Proof.
  apply (proj2 (X1_apiCaller_returns_accepted_response
                  Scenario.running (VStr "https://status") "GET" VNone (VStr "abc"))).
  split; [ reflexivity | left; reflexivity ].
Defined.



(** ** [checkStausOfService] and [authenticate] *)





(** ** The orchestrator, run by run *)

Lemma list_getitem_last_inv {A : Type} (data : list A) (row : A) :
  list_getitem data (Z.of_nat (List.length data) - 1) = Ok row ->
  exists earlier, data = (earlier ++ [row])%list.
Proof.
  destruct data as [ | x xs]; [ discriminate | ].
  assert (Hne : x :: xs <> []) by discriminate.
  destruct (exists_last Hne) as (earlier & a & ->).
  rewrite list_getitem_last. intros [= ->]. now exists earlier.
Qed.

Lemma read_credentials_inv (w : World) (u p : pyval) :
  outcome (read_credentials w) = Ok (u, p) -> credentials_read w u p.
Proof.
  destruct (open_by_key w (looked_up_key w)) as [ss | e] eqn:Hopen.
  - rewrite (read_credentials_opened _ Hopen).
    destruct (get_worksheet ss 0) as [[ws | ] | e] eqn:Hws; try discriminate.
    destruct (get_all_records ws) as [data | e] eqn:Hdata; try discriminate.
    destruct (list_getitem data _) as [row | e] eqn:Hrow; try discriminate.
    destruct (dict_getitem row "Username") as [u' | e] eqn:Hu; try discriminate.
    destruct (dict_getitem row "Password") as [p' | e] eqn:Hp; try discriminate.
    intros [= <- <-].
    destruct (list_getitem_last_inv _ Hrow) as [earlier ->].
    now exists ss, ws, earlier, row.
  - rewrite (read_credentials_unopened _ Hopen). discriminate.
Qed.

Lemma post_to_webhook_http (w : World) (msg : pyval) :
  http_calls (trace (post_to_webhook w msg (color_for msg))) =
    expected_webhook_requests w msg.
Proof.
  unfold expected_webhook_requests.
  destruct (truthy (webhook_url w)) eqn:Hurl.
  - destruct (is_str msg) eqn:Hs.
    + destruct msg; try discriminate Hs.
      now rewrite (post_to_webhook_str _ _ _ Hurl).
    + destruct (post_to_webhook_not_str _ _ (color_for msg) Hurl Hs) as [d ->].
      destruct msg; try discriminate Hs; reflexivity.
  - now rewrite (post_to_webhook_unconfigured _ _ _ Hurl).
Qed.

Lemma reporting_run_http (w : World) (u p tok msg : pyval) :
  outcome (read_credentials w) = Ok (u, p) ->
  outcome (authenticate w u p) = Ok tok ->
  outcome (checkStausOfService w tok) = Ok msg ->
  http_calls (trace (process_all_req w)) =
    auth_request w u p :: status_request w tok :: expected_webhook_requests w msg.
Proof.
  intros Hrc Hauth Hcheck.
  rewrite (process_all_req_reports w Hrc Hauth Hcheck).
  destruct (finish_trace
              (trace (read_credentials w) ++ trace (authenticate w u p) ++
               trace (checkStausOfService w tok))
              (post_to_webhook w msg (color_for msg))) as [logs ->].
  rewrite !http_calls_app.
  destruct (read_credentials_calls w) as (_ & _ & _ & ->).
  destruct (authenticate_calls w u p) as (_ & _ & _ & ->).
  destruct (checkStausOfService_calls w tok) as (_ & _ & _ & ->).
  destruct (calls_of_prints logs) as (_ & _ & _ & ->).
  rewrite post_to_webhook_http, app_nil_r. reflexivity.
Qed.

(** X5.  A failed authentication does not stop the run: once the
    credentials are read, the status check is still called, with the
    pair [(None, None)] as its token, and its request carries the
    header [Authorization: Bearer (None, None)]. *)
Theorem X5_failed_authentication_goes_on (w : World) (u p : pyval) :
  credentials_read w u p ->
  auth_fails w u p ->
  status_calls (trace (process_all_req w)) = [VTuple [VNone; VNone]] /\
  exists rest,
    http_calls (trace (process_all_req w)) =
      auth_request w u p ::
      {| req_method := "GET";
         req_url := service_api_url w;
         req_headers := [("Authorization", "Bearer (None, None)")];
         req_json := VNone |} :: rest.
Proof.
  intros Hrc Hfail.
  apply read_credentials_ok in Hrc. apply authenticate_fails in Hfail.
  destruct (checkStausOfService_shape w failure) as (logs & msg & Hc & _).
  assert (Hcheck : outcome (checkStausOfService w failure) = Ok msg) by now rewrite Hc.
  split.
  - exact (proj1 (proj2 (reporting_run_calls_of w Hrc Hfail Hcheck))).
  - exists (expected_webhook_requests w msg).
    exact (reporting_run_http w Hrc Hfail Hcheck).
Qed.

Lemma X5_failed_authentication_witness :
  status_calls (trace (process_all_req Scenario.auth_401)) = [VTuple [VNone; VNone]] /\
  exists rest,
    http_calls (trace (process_all_req Scenario.auth_401)) =
      auth_request Scenario.auth_401 (VStr "svc") (VStr "pw1") ::
      {| req_method := "GET";
         req_url := VStr "https://status";
         req_headers := [("Authorization", "Bearer (None, None)")];
         req_json := VNone |} :: rest.
Proof.
  apply (@X5_failed_authentication_goes_on Scenario.auth_401 (VStr "svc") (VStr "pw1")).
  - exists Scenario.sheet, {| get_all_records := Ok Scenario.sheet_rows |},
      [[("Username", VStr "old"); ("Password", VStr "pw0")]],
      [("Username", VStr "svc"); ("Password", VStr "pw1")].
    repeat split; reflexivity.
  - exact I.
Defined.



(** X8.  A run makes at most three HTTP requests, in a fixed order.
    Without credentials it makes none.  With credentials it makes the
    authentication request, then the status request whose bearer is
    what [authenticate] returned, then, only if a webhook URL is
    configured and the status check returned a string, the webhook
    request with that string and its color. *)
Theorem X8_request_order (w : World) :
  ((forall u p, ~ credentials_read w u p) ->
   http_calls (trace (process_all_req w)) = []) /\
  (forall u p,
      credentials_read w u p ->
      exists token msg,
        outcome (authenticate w u p) = Ok token /\
        outcome (checkStausOfService w token) = Ok msg /\
        http_calls (trace (process_all_req w)) =
          auth_request w u p :: status_request w token ::
          (if truthy (webhook_url w) then
             match msg with
             | VStr s =>
                 [webhook_request (webhook_url w)
                    (card_body (VStr ("BMS Service is " ++ s))
                       (if py_eq_str msg "Running"
                        then VStr "Good" else VStr "Warning"))]
             | _ => []
             end
           else [])).
Proof.
  split.
  - intros Hnone.
    destruct (outcome (read_credentials w)) as [[u p] | e] eqn:Hrc.
    + apply read_credentials_inv in Hrc. now destruct (Hnone u p).
    + now destruct (stopped_run_calls w Hrc) as (_ & _ & _ & _ & ->).
  - intros u p Hcr. apply read_credentials_ok in Hcr.
    destruct (authenticate_shape w u p) as (la & tok & Ha).
    destruct (checkStausOfService_shape w tok) as (lc & msg & Hc & _).
    assert (Hauth : outcome (authenticate w u p) = Ok tok) by now rewrite Ha.
    assert (Hcheck : outcome (checkStausOfService w tok) = Ok msg) by now rewrite Hc.
    exists tok, msg. repeat (split; [ assumption | ]).
    exact (reporting_run_http w Hcr Hauth Hcheck).
Qed.

Lemma X8_request_order_witness :
  http_calls (trace (process_all_req Scenario.no_key)) = [] /\
  exists token msg,
    outcome (authenticate Scenario.stopped (VStr "svc") (VStr "pw1")) = Ok token /\
    outcome (checkStausOfService Scenario.stopped token) = Ok msg /\
    http_calls (trace (process_all_req Scenario.stopped)) =
      auth_request Scenario.stopped (VStr "svc") (VStr "pw1") ::
      status_request Scenario.stopped token ::
      (if truthy (webhook_url Scenario.stopped) then
         match msg with
         | VStr s =>
             [webhook_request (webhook_url Scenario.stopped)
                (card_body (VStr ("BMS Service is " ++ s))
                   (if py_eq_str msg "Running"
                    then VStr "Good" else VStr "Warning"))]
         | _ => []
         end
       else []).
Proof.
  split.
  - apply (proj1 (X8_request_order Scenario.no_key)).
    intros u p (ss & _ & _ & _ & Hopen & _). discriminate Hopen.
  - apply (proj2 (X8_request_order Scenario.stopped) (VStr "svc") (VStr "pw1")).
    exists Scenario.sheet, {| get_all_records := Ok Scenario.sheet_rows |},
      [[("Username", VStr "old"); ("Password", VStr "pw0")]],
      [("Username", VStr "svc"); ("Password", VStr "pw1")].
    repeat split; reflexivity.
Defined.

(** X9.  If the last row of the worksheet has no [Username] or no
    [Password] column, the run stops on the [KeyError] of that column:
    it makes no HTTP request, calls neither the authenticator nor the
    notifier, and returns the pair [(None, None)]. *)
Theorem X9_missing_column_stops_run
  (w : World) (ss : Spreadsheet) (ws : Worksheet)
  (earlier : list record) (row : record) (column : string) :
  open_by_key w (looked_up_key w) = Ok ss ->
  get_worksheet ss 0 = Ok (Some ws) ->
  get_all_records ws = Ok (earlier ++ [row])%list ->
  (dict_getitem row "Username" = Err (KeyError column) \/
   (exists u, dict_getitem row "Username" = Ok u) /\
   dict_getitem row "Password" = Err (KeyError column)) ->
  outcome (process_all_req w) = Ok (VTuple [VNone; VNone]) /\
  auth_calls (trace (process_all_req w)) = [] /\
  webhook_calls (trace (process_all_req w)) = [] /\
  http_calls (trace (process_all_req w)) = [] /\
  exists pre,
    trace (process_all_req w) =
      (pre ++ [EvPrint (LogTraceback (KeyError column))])%list.
Proof.
  intros Hopen Hws Hdata Hmiss.
  assert (Hrc : outcome (read_credentials w) = Err (KeyError column)).
  { rewrite (read_credentials_opened _ Hopen), Hws, Hdata, list_getitem_last.
    destruct Hmiss as [-> | [[u ->] ->]]; reflexivity. }
  destruct (stopped_run_calls w Hrc) as (Hout & Ha & _ & Hw & Hh).
  repeat (split; [ assumption | ]).
  exists (trace (read_credentials w)).
  now rewrite (process_all_req_stops w Hrc).
Qed.

Lemma X9_missing_column_witness :
  outcome (process_all_req MoreScenarios.no_password) = Ok (VTuple [VNone; VNone]) /\
  auth_calls (trace (process_all_req MoreScenarios.no_password)) = [] /\
  webhook_calls (trace (process_all_req MoreScenarios.no_password)) = [] /\
  http_calls (trace (process_all_req MoreScenarios.no_password)) = [] /\
  exists pre,
    trace (process_all_req MoreScenarios.no_password) =
      (pre ++ [EvPrint (LogTraceback (KeyError "Password"))])%list.
Proof.
  apply (@X9_missing_column_stops_run MoreScenarios.no_password
           MoreScenarios.sheet_without_password
           {| get_all_records := Ok MoreScenarios.rows_without_password |}
           [] [("Username", VStr "svc")] "Password");
    try reflexivity.
  right. split; [ now exists (VStr "svc") | reflexivity ].
Defined.

(** ** The notifier and the key lookup *)





Lemma read_credentials_trace_key (w : World) :
  exists logs,
    trace (read_credentials w) =
      (trace (get_excel_key w "WINDOWS_SERVER_PASS") ++
       EvGoogleSheetConnect (looked_up_key w) :: map EvPrint logs)%list.
Proof.
  unfold read_credentials.
  rewrite (bind_ok _ _ (get_excel_key_value w)). cbn [trace fst].
  set (key := looked_up_key w).
  assert (Hconn : exists logs o,
             googleSheetConnectNew w key =
               (EvGoogleSheetConnect key :: map EvPrint logs, Ok o)).
  { destruct (open_by_key w key) as [ss | e] eqn:Hopen.
    - rewrite (googleSheetConnectNew_ok _ _ Hopen). now exists [], (OSpreadsheet ss).
    - rewrite (googleSheetConnectNew_err _ _ Hopen).
      now exists [LogSheetFail e; LogTraceback e], (OVal failure). }
  destruct Hconn as (logs & o & ->).
  exists logs. f_equal.
  rewrite bind_ok with (a := o) by reflexivity. cbn [trace fst].
  rewrite <- (app_nil_r (_ :: map EvPrint logs)) at 2. f_equal.
  cbv zeta. silent.
Qed.

Lemma process_all_req_prefix (w : World) :
  exists rest,
    trace (process_all_req w) =
      (trace (get_excel_key w "WINDOWS_SERVER_PASS") ++
       EvGoogleSheetConnect (looked_up_key w) :: rest)%list.
Proof.
  destruct (read_credentials_trace_key w) as [logs Hrc].
  destruct (process_all_req_cases w)
    as [(e & _ & ->) | (u & p & tok & msg & _ & _ & _ & ->)].
  - cbn [trace fst]. rewrite Hrc, <- app_assoc. cbn [app]. eauto.
  - destruct (finish_trace
                (trace (read_credentials w) ++ trace (authenticate w u p) ++
                 trace (checkStausOfService w tok))
                (post_to_webhook w msg (color_for msg))) as [logs' ->].
    rewrite Hrc, <- !app_assoc. cbn [app]. eauto.
Qed.

(** X11.  The key lookup feeds the connection, and never stops the run:
    the first thing a run does after the lookup is to connect to the
    spreadsheet whose identifier the keys file binds to
    [WINDOWS_SERVER_PASS]; when the keys file cannot be read or parsed
    the run prints one line and connects all the same, with [None] as
    identifier. *)
Theorem X11_lookup_feeds_connection (w : World) :
  (forall entries v,
      keys_file w = Ok (VDict entries) ->
      dict_getitem entries "WINDOWS_SERVER_PASS" = Ok v ->
      exists rest,
        trace (process_all_req w) = EvGoogleSheetConnect v :: rest) /\
  (forall e,
      keys_file w = Err e ->
      exists rest,
        trace (process_all_req w) =
          EvPrint (LogKeyInvalid e) :: EvGoogleSheetConnect VNone :: rest).
Proof.
  destruct (process_all_req_prefix w) as [rest Heq].
  split.
  - intros entries v Hfile Hv. exists rest. rewrite Heq.
    unfold looked_up_key, get_excel_key, try_except, bind, lift.
    rewrite Hfile. cbn. unfold dict_get. now rewrite Hv.
  - intros e Hfile. exists rest. rewrite Heq.
    unfold looked_up_key, get_excel_key, try_except, bind, lift.
    rewrite Hfile. reflexivity.
Qed.

Lemma X11_lookup_feeds_connection_witness :
  (exists rest,
      trace (process_all_req Scenario.running) =
        EvGoogleSheetConnect (VStr "SHEET123") :: rest) /\
  (exists rest,
      trace (process_all_req MoreScenarios.keys_unreadable) =
        EvPrint (LogKeyInvalid JSONDecodeError) :: EvGoogleSheetConnect VNone :: rest).
Proof.
  split.
  - apply (proj1 (X11_lookup_feeds_connection Scenario.running)
             [("WINDOWS_SERVER_PASS", VStr "SHEET123")] (VStr "SHEET123"));
      reflexivity.
  - apply (proj2 (X11_lookup_feeds_connection MoreScenarios.keys_unreadable)
             JSONDecodeError).
    reflexivity.
Defined.

(** ** The script as a whole *)

Lemma write_file_ok (h : Host) (p : path) (s : string) (fs : files) :
  written h p s ->
  write_file h p (VStr s) fs = (set_content fs p s, Ok tt).
Proof. intros [Ho Hw]. unfold write_file. now rewrite Ho, Hw. Qed.

Lemma script_after_init (h : Host) (fs fs' : files) (w : World) :
  module_init h fs = (fs', Ok w) ->
  snd (script h fs) = (trace (process_all_req w), Ok tt).
Proof.
  intros H. unfold script. rewrite H. cbn [snd].
  unfold bind, ret. destruct (process_all_req_total w) as [-> | ->];
    cbn [trace outcome fst snd]; now rewrite app_nil_r.
Qed.

(** X12.  If [SERVICE_JSON] or [KEYS_JSON] is missing from the
    environment, the script ends at import time with an exception,
    before it prints anything, connects to the spreadsheet or makes an
    HTTP request; when both files open for writing and [SERVICE_JSON],
    if it is set, is written without error, the exception is the
    [TypeError] of [write(None)]. *)
Theorem X12_missing_blob_aborts (h : Host) (fs : files) :
  getenv h "SERVICE_JSON" = None \/ getenv h "KEYS_JSON" = None ->
  exists e,
    snd (script h fs) = ([], Err e) /\
    ((forall p, open_for_writing h p = None) ->
     (forall service_json,
         getenv h "SERVICE_JSON" = Some service_json ->
         write_failure h service_json_path service_json = None) ->
     exists detail, e = TypeError detail).
Proof.
  intros Hmiss. unfold script, module_init, os_getenv, write_file.
  destruct (open_for_writing h service_json_path) as [e | ] eqn:Ho1.
  { destruct (getenv h "SERVICE_JSON"); exists e;
      (split; [ reflexivity | ]); intros Hall; rewrite Hall in Ho1; discriminate. }
  destruct (getenv h "SERVICE_JSON") as [sj | ] eqn:Hsj.
  - destruct Hmiss as [Hmiss | Hmiss]; [ discriminate | ]. rewrite Hmiss.
    destruct (write_failure h service_json_path sj) as [[e remains] | ] eqn:Hw1.
    + exists e. split; [ reflexivity | ]. intros _ Hwrite.
      rewrite (Hwrite sj eq_refl) in Hw1. discriminate.
    + destruct (open_for_writing h keys_json_path) as [e | ] eqn:Ho2.
      * exists e. split; [ reflexivity | ]. intros Hall.
        rewrite Hall in Ho2. discriminate.
      * eexists. split; [ reflexivity | eauto ].
  - eexists. split; [ reflexivity | eauto ].
Qed.

Lemma X12_missing_blob_witness :
  exists e,
    snd (script (HostScenario.host HostScenario.env_no_keys) HostScenario.no_files)
      = ([], Err e) /\
    ((forall p, open_for_writing (HostScenario.host HostScenario.env_no_keys) p = None) ->
     (forall service_json,
         getenv (HostScenario.host HostScenario.env_no_keys) "SERVICE_JSON"
           = Some service_json ->
         write_failure (HostScenario.host HostScenario.env_no_keys)
           service_json_path service_json = None) ->
     exists detail, e = TypeError detail).
Proof.
  apply (X12_missing_blob_aborts (HostScenario.host HostScenario.env_no_keys)
           HostScenario.no_files).
  right. reflexivity.
Defined.



(** X14.  What the set-up leaves in the two files.  With both blobs set
    and both written, each file holds its blob verbatim, whatever it
    held before.  With [SERVICE_JSON] missing, the service-account file
    is left empty and the keys file is not touched.  With only
    [KEYS_JSON] missing, the service-account file holds its blob and the
    keys file is left empty.  When the write of a blob fails (an
    environment value that cannot be encoded, a device that fills up),
    the script ends with that exception, the file holds what the failed
    write left in it, and a file not yet reached is not touched.  When
    the first file does not open, neither file is touched. *)
Theorem X14_files_after_script (h : Host) (fs : files) :
  (forall service_json keys_json,
      getenv h "SERVICE_JSON" = Some service_json ->
      getenv h "KEYS_JSON" = Some keys_json ->
      written h service_json_path service_json ->
      written h keys_json_path keys_json ->
      fst (script h fs) service_json_path = Some service_json /\
      fst (script h fs) keys_json_path = Some keys_json) /\
  (getenv h "SERVICE_JSON" = None ->
   open_for_writing h service_json_path = None ->
      fst (script h fs) service_json_path = Some EmptyString /\
      fst (script h fs) keys_json_path = fs keys_json_path) /\
  (forall service_json,
      getenv h "SERVICE_JSON" = Some service_json ->
      written h service_json_path service_json ->
      getenv h "KEYS_JSON" = None ->
      open_for_writing h keys_json_path = None ->
      fst (script h fs) service_json_path = Some service_json /\
      fst (script h fs) keys_json_path = Some EmptyString) /\
  (forall service_json e remains,
      getenv h "SERVICE_JSON" = Some service_json ->
      open_for_writing h service_json_path = None ->
      write_failure h service_json_path service_json = Some (e, remains) ->
      fst (script h fs) service_json_path = Some remains /\
      fst (script h fs) keys_json_path = fs keys_json_path /\
      snd (script h fs) = ([], Err e)) /\
  (forall service_json keys_json e remains,
      getenv h "SERVICE_JSON" = Some service_json ->
      written h service_json_path service_json ->
      getenv h "KEYS_JSON" = Some keys_json ->
      open_for_writing h keys_json_path = None ->
      write_failure h keys_json_path keys_json = Some (e, remains) ->
      fst (script h fs) service_json_path = Some service_json /\
      fst (script h fs) keys_json_path = Some remains /\
      snd (script h fs) = ([], Err e)) /\
  (forall e,
      open_for_writing h service_json_path = Some e ->
      fst (script h fs) service_json_path = fs service_json_path /\
      fst (script h fs) keys_json_path = fs keys_json_path /\
      snd (script h fs) = ([], Err e)).
Proof.
  unfold script, module_init, os_getenv, write_file, written.
  repeat split.
  all: intros; repeat match goal with
                      | H : _ /\ _ |- _ => destruct H
                      end.
  all: repeat match goal with
              | H : getenv _ _ = _ |- _ => rewrite H; clear H
              | H : open_for_writing _ _ = _ |- _ => rewrite H; clear H
              | H : write_failure _ _ _ = _ |- _ => rewrite H; clear H
              end.
  all: reflexivity.
Qed.

Lemma X14_files_after_script_witness :
  (fst (script (HostScenario.host HostScenario.env_full) HostScenario.stale_files)
     service_json_path = Some HostScenario.service_text /\
   fst (script (HostScenario.host HostScenario.env_full) HostScenario.stale_files)
     keys_json_path = Some HostScenario.keys_text) /\
  (fst (script (HostScenario.host HostScenario.env_no_keys) HostScenario.stale_files)
     service_json_path = Some HostScenario.service_text /\
   fst (script (HostScenario.host HostScenario.env_no_keys) HostScenario.stale_files)
     keys_json_path = Some EmptyString) /\
  (fst (script (HostScenario.host HostScenario.env_undecodable_keys)
          HostScenario.stale_files) service_json_path
     = Some HostScenario.service_text /\
   fst (script (HostScenario.host HostScenario.env_undecodable_keys)
          HostScenario.stale_files) keys_json_path = Some EmptyString /\
   snd (script (HostScenario.host HostScenario.env_undecodable_keys)
          HostScenario.stale_files)
     = ([], Err (OtherError "UnicodeEncodeError"))) /\
  (fst (script (HostScenario.host HostScenario.env_undecodable_service)
          HostScenario.stale_files) service_json_path = Some EmptyString /\
   fst (script (HostScenario.host HostScenario.env_undecodable_service)
          HostScenario.stale_files) keys_json_path = Some "stale" /\
   snd (script (HostScenario.host HostScenario.env_undecodable_service)
          HostScenario.stale_files)
     = ([], Err (OtherError "UnicodeEncodeError"))).
Proof.
  split; [ | split; [ | split ] ].
  - apply (proj1 (X14_files_after_script (HostScenario.host HostScenario.env_full)
                    HostScenario.stale_files));
      try reflexivity; split; reflexivity.
  - apply (proj1 (proj2 (proj2 (X14_files_after_script
                                  (HostScenario.host HostScenario.env_no_keys)
                                  HostScenario.stale_files))));
      try reflexivity; split; reflexivity.
  - apply (proj1 (proj2 (proj2 (proj2 (proj2
             (X14_files_after_script
                (HostScenario.host HostScenario.env_undecodable_keys)
                HostScenario.stale_files)))))
             HostScenario.service_text HostScenario.undecodable);
      try reflexivity; split; reflexivity.
  - apply (proj1 (proj2 (proj2 (proj2
             (X14_files_after_script
                (HostScenario.host HostScenario.env_undecodable_service)
                HostScenario.stale_files))))
             HostScenario.undecodable);
      reflexivity.
Defined.

(** X15.  After a set-up that succeeds (both blobs set, each file opens
    and takes its blob without error), the run is the orchestrator's,
    on what the environment holds: the keys table it looks up is the
    parse of [KEYS_JSON], gspread reads the file that holds
    [SERVICE_JSON], the three URLs are the three variables (or [None]),
    and what the two files held before plays no part. *)
Theorem X15_run_after_setup
  (h : Host) (fs : files) (service_json keys_json : string) :
  getenv h "SERVICE_JSON" = Some service_json ->
  getenv h "KEYS_JSON" = Some keys_json ->
  written h service_json_path service_json ->
  written h keys_json_path keys_json ->
  snd (script h fs) =
    (trace (process_all_req
              {| webhook_url := os_getenv h "WEBHOOK_URL";
                 service_api_url := os_getenv h "SERVICE_API_URL";
                 auth_api_url := os_getenv h "AUTH_API_URL";
                 keys_file := json_load h keys_json;
                 open_by_key := service_account_open_by_key h (Some service_json);
                 http := host_http h;
                 repr_str := host_repr_str h |}),
     Ok tt).
Proof.
  intros Hsj Hkj Hw1 Hw2.
  apply script_after_init with
    (fs' := set_content (set_content fs service_json_path service_json)
              keys_json_path keys_json).
  unfold module_init, os_getenv. rewrite Hsj, Hkj.
  rewrite !write_file_ok by assumption. reflexivity.
Qed.

Lemma X15_run_after_setup_witness :
  snd (script (HostScenario.host HostScenario.env_full) HostScenario.stale_files) =
    (trace (process_all_req Scenario.running), Ok tt).
Proof.
  apply (@X15_run_after_setup (HostScenario.host HostScenario.env_full)
           HostScenario.stale_files HostScenario.service_text HostScenario.keys_text);
    try reflexivity; split; reflexivity.
Defined.

(** X16.  The keys blob makes the round trip from the environment to
    the connection: after a set-up that succeeds (both blobs set, each
    file opens and takes its blob without error), if [KEYS_JSON] parses
    to an object that binds [WINDOWS_SERVER_PASS] to an identifier, the
    first event of the run is the connection to the spreadsheet with
    that identifier; if [KEYS_JSON] does not parse, the script still
    runs on, prints one line and connects with [None]. *)
Theorem X16_keys_blob_round_trip
  (h : Host) (fs : files) (service_json keys_json : string) :
  getenv h "SERVICE_JSON" = Some service_json ->
  getenv h "KEYS_JSON" = Some keys_json ->
  written h service_json_path service_json ->
  written h keys_json_path keys_json ->
  (forall entries v,
      json_load h keys_json = Ok (VDict entries) ->
      dict_getitem entries "WINDOWS_SERVER_PASS" = Ok v ->
      exists rest,
        trace (snd (script h fs)) = EvGoogleSheetConnect v :: rest) /\
  (forall e,
      json_load h keys_json = Err e ->
      exists rest,
        trace (snd (script h fs)) =
          EvPrint (LogKeyInvalid e) :: EvGoogleSheetConnect VNone :: rest).
Proof.
  intros Hsj Hkj Hw1 Hw2.
  assert (Hinit : module_init h fs =
            (set_content (set_content fs service_json_path service_json)
               keys_json_path keys_json,
             Ok (world_of h (set_content (set_content fs service_json_path service_json)
                               keys_json_path keys_json)))).
  { unfold module_init, os_getenv. rewrite Hsj, Hkj.
    rewrite !write_file_ok by assumption. reflexivity. }
  rewrite (script_after_init _ _ Hinit). cbn [trace fst].
  set (w := world_of h _).
  assert (Hfile : keys_file w = json_load h keys_json) by reflexivity.
  destruct (process_all_req_prefix w) as [rest Heq].
  split.
  - intros entries v Hload Hv. exists rest. rewrite Heq.
    unfold looked_up_key, get_excel_key, try_except, bind, lift.
    rewrite Hfile, Hload. cbn. unfold dict_get. now rewrite Hv.
  - intros e Hload. exists rest. rewrite Heq.
    unfold looked_up_key, get_excel_key, try_except, bind, lift.
    rewrite Hfile, Hload. reflexivity.
Qed.

Lemma X16_keys_blob_round_trip_witness :
  (exists rest,
      trace (snd (script (HostScenario.host HostScenario.env_full)
                    HostScenario.no_files)) =
        EvGoogleSheetConnect (VStr "SHEET123") :: rest) /\
  (exists rest,
      trace (snd (script (HostScenario.host HostScenario.env_bad_keys)
                    HostScenario.no_files)) =
        EvPrint (LogKeyInvalid JSONDecodeError) :: EvGoogleSheetConnect VNone :: rest).
Proof.
  split.
  - apply (proj1 (@X16_keys_blob_round_trip (HostScenario.host HostScenario.env_full)
                    HostScenario.no_files HostScenario.service_text
                    HostScenario.keys_text
                    eq_refl eq_refl (conj eq_refl eq_refl) (conj eq_refl eq_refl))
             [("WINDOWS_SERVER_PASS", VStr "SHEET123")] (VStr "SHEET123"));
      reflexivity.
  - apply (proj2 (@X16_keys_blob_round_trip (HostScenario.host HostScenario.env_bad_keys)
                    HostScenario.no_files HostScenario.service_text "oops"
                    eq_refl eq_refl (conj eq_refl eq_refl) (conj eq_refl eq_refl))
             JSONDecodeError).
    reflexivity.
Defined.
